(** * map646: the tun interface module (tunif.c)

    A shallow embedding of [tunif.c]: interface creation ([tun_alloc]), the
    address-family framing codec ([tun_get_af], [tun_set_af]), route
    injection ([tun_route_add]) and netmask derivation
    ([tun_make_netmask]).

    The C file is compiled in one of two ways, selected by
    [#if defined(__linux__)]; the embedding takes the choice as a
    [platform] argument and follows the matching branch.  Memory is made of
    bytes (values of type [Z] in [0, 256)); multi-byte fields are stored in
    the byte order of the host, which is an [endian] argument.  System calls
    are answered by a [host], and every call and every diagnostic is
    appended to the [trace] of the process. *)

From Stdlib Require Import ZArith String List Lia.
From stdpp Require Import base list gmap strings.
From coqutil Require Import Z.bitblast.

Local Open Scope Z_scope.

(** ** Platforms and the constants of the system headers

    The values are those of Linux and of FreeBSD, the BSD whose
    SIOCIFCREATE2, TUNSIFMODE and SA_SIZE the file uses. *)

Inductive platform := Linux | BSD.
Inductive endian := LittleEndian | BigEndian.

(* <net/if.h>, <sys/param.h> *)
Definition IFNAMSIZ : nat := 16.
Definition MAXPATHLEN : nat := 1024.
Definition IFF_UP : Z := 1.
Definition IFF_POINTOPOINT : Z := 16.
(* <linux/if_tun.h>, <linux/if_ether.h> *)
Definition IFF_TUN : Z := 1.
Definition ETH_P_IP : Z := 2048.      (* 0x0800 *)
Definition ETH_P_IPV6 : Z := 34525.   (* 0x86DD *)
(* <sys/socket.h> *)
Definition AF_INET : Z := 2.
Definition AF_INET6 (pf : platform) : Z :=
  match pf with Linux => 10 | BSD => 28 end.
Definition AF_LINK : Z := 18.
Definition PF_ROUTE : Z := 17.
Definition SOCK_DGRAM : Z := 2.
Definition SOCK_RAW : Z := 3.
(* <fcntl.h>, <stdlib.h> *)
Definition O_RDWR : Z := 2.
Definition EXIT_FAILURE : Z := 1.
(* <net/route.h> *)
Definition RTF_UP : Z := 1.
Definition RTF_HOST : Z := 4.
Definition RTF_STATIC : Z := 2048.
Definition RTA_DST : Z := 1.
Definition RTA_GATEWAY : Z := 2.
Definition RTA_NETMASK : Z := 4.
Definition RTM_ADD : Z := 1.
Definition RTM_VERSION : Z := 5.
(* <limits.h> *)
Definition INT_MAX : Z := 2147483647.
(* sizeof(struct sockaddr_in), sizeof(struct sockaddr_in6),
   sizeof(struct in_addr), sizeof(struct in6_addr) *)
Definition sizeof_sockaddr_in : nat := 16.
Definition sizeof_sockaddr_in6 : nat := 28.
Definition sizeof_in_addr : nat := 4.
Definition sizeof_in6_addr : nat := 16.
(* offsetof(struct sockaddr_in, sin_addr),
   offsetof(struct sockaddr_in6, sin6_addr) *)
Definition offsetof_sin_addr : nat := 4.
Definition offsetof_sin6_addr : nat := 8.

(** ** Bytes and C strings *)

Definition byte_ok (b : Z) : Prop := 0 <= b < 256.

(** [n] bytes of [v], least significant first. *)
Fixpoint le_bytes (n : nat) (v : Z) : list Z :=
  match n with
  | O => []
  | S n' => Z.land v 255 :: le_bytes n' (Z.shiftr v 8)
  end.

Fixpoint le_value (bs : list Z) : Z :=
  match bs with
  | [] => 0
  | b :: bs' => Z.lor b (Z.shiftl (le_value bs') 8)
  end.

(** The object representation of an [n]-byte unsigned integer. *)
Definition encode (e : endian) (n : nat) (v : Z) : list Z :=
  match e with
  | LittleEndian => le_bytes n v
  | BigEndian => rev (le_bytes n v)
  end.

Definition decode (e : endian) (bs : list Z) : Z :=
  match e with
  | LittleEndian => le_value bs
  | BigEndian => le_value (rev bs)
  end.

(** The value whose object representation is [bs] read in network order. *)
Definition be_value (bs : list Z) : Z := le_value (rev bs).

Definition bswap (n : nat) (v : Z) : Z := le_value (rev (le_bytes n v)).

(** htons/ntohs and htonl/ntohl: the identity on a big-endian host, a byte
    swap on a little-endian one. *)
Definition htons (e : endian) (v : Z) : Z :=
  match e with BigEndian => v | LittleEndian => bswap 2 v end.
Definition ntohs := htons.
Definition htonl (e : endian) (v : Z) : Z :=
  match e with BigEndian => v | LittleEndian => bswap 4 v end.
Definition ntohl := htonl.

Definition bytes_of_string (s : string) : list Z :=
  map (fun c => Z.of_N (Ascii.N_of_ascii c)) (list_ascii_of_string s).

(** The characters of the C string held in [a]: those before the first NUL.
    [None] when the array holds no NUL (a read would run past its end). *)
Fixpoint cstr (a : list Z) : option (list Z) :=
  match a with
  | [] => None
  | c :: a' => if c =? 0 then Some [] else option_map (cons c) (cstr a')
  end.

(** strncpy(dst, src, n): the [n] bytes written to [dst]. *)
Fixpoint strncpy (src : list Z) (n : nat) {struct n} : option (list Z) :=
  match n with
  | O => Some []
  | S n' =>
      match src with
      | [] => None
      | c :: src' =>
          if c =? 0 then Some (replicate n 0)
          else option_map (cons c) (strncpy src' n')
      end
  end.

(** strcmp(a, b): zero when equal; stops at the first difference. *)
Fixpoint strcmp (a b : list Z) : option Z :=
  match a, b with
  | x :: a', y :: b' =>
      if x =? y then (if x =? 0 then Some 0 else strcmp a' b')
      else Some (x - y)
  | _, _ => None
  end.

(** Overwrite [length bs] bytes of [a] from offset [off]. *)
Definition write_at (off : nat) (bs : list Z) (a : list Z) : option (list Z) :=
  if decide (off + length bs <= length a)%nat
  then Some (take off a ++ bs ++ drop (off + length bs) a)
  else None.

Definition read_at (off n : nat) (a : list Z) : option (list Z) :=
  if decide (off + n <= length a)%nat
  then Some (take n (drop off a))
  else None.

(** strcat(dst, src) on an array [dst]. *)
Definition strcat (dst src : list Z) : option (list Z) :=
  match cstr dst, cstr src with
  | Some d, Some s => write_at (length d) (s ++ [0]) dst
  | _, _ => None
  end.

(** ** The process: memory, trace, outcomes *)

(** struct ifreq, as far as [tunif.c] uses it. *)
Record ifreq := Ifreq { ifr_name : list Z; ifr_flags : Z }.

(** One entry of the list built by getifaddrs(): [ifa_addr] is the bytes of
    the socket address it points to, [None] for a null pointer. *)
Record ifaddrs := Ifaddrs { ifa_name : list Z; ifa_addr : option (list Z) }.

(** The routing message handed to write(): the fields of [m_rtm] that the
    code sets, and the bytes of [m_space] up to [cp]. *)
Record rt_message := RtMessage {
  rtm_msglen : Z;
  rtm_version : Z;
  rtm_type : Z;
  rtm_flags : Z;
  rtm_addrs : Z;
  rtm_seq : Z;
  m_space : list Z
}.

Inductive ifreq_request := TUNSETIFF | SIOCIFCREATE2 | SIOCSIFFLAGS | SIOCIFDESTROY.
Inductive int_request := TUNSIFMODE | TUNSIFHEAD.

Inductive diag_fn := Fwarn | Fwarnx | Ferr | Ferrx.
Inductive fmt_arg := ArgStr (s : list Z) | ArgInt (n : Z).

Inductive event :=
| Esocket (domain type protocol ret : Z)
| Eopen (path : list Z) (flags ret : Z)
| Eioctl_ifreq (fd : Z) (req : ifreq_request) (arg : ifreq) (ret : Z) (res : ifreq)
| Eioctl_int (fd : Z) (req : int_request) (arg ret : Z)
| Egetifaddrs (ret : Z)
| Efreeifaddrs
| Ewrite (fd : Z) (msg : rt_message) (ret : Z)
| Eclose (fd : Z)
| Ediag (fn : diag_fn) (fmt : string) (args : list fmt_arg).

(** What the machine and its kernel answer, given the calls made so far. *)
Record host := Host {
  h_socket : list event -> Z -> Z -> Z -> Z;
  h_open : list event -> list Z -> Z -> Z;
  h_ioctl_ifreq : list event -> Z -> ifreq_request -> ifreq -> Z * ifreq;
  h_ioctl_int : list event -> Z -> int_request -> Z -> Z;
  h_getifaddrs : list event -> Z * list ifaddrs;
  h_write : list event -> Z -> rt_message -> Z;
  (** the indeterminate initial bytes of an automatic array *)
  h_stack : list event -> string -> nat -> list Z;
  h_sizeof_long : Z;
  h_sizeof_rt_msghdr : Z;
  h_sizeof_sockunion : nat
}.

(** Pointers to character buffers: null, the exported array
    [char tun_if_name[IFNAMSIZ]], or a buffer owned by the caller. *)
Inductive ptr := NULL | Global_tun_if_name | Buf (id : nat).

#[global] Instance ptr_eq_dec : EqDecision ptr.
Proof. solve_decision. Defined.

Record world := World {
  trace : list event;
  tun_if_name : list Z;          (* char tun_if_name[IFNAMSIZ] *)
  seq : Z;                       (* static int seq, in tun_route_add *)
  bufs : gmap nat (list Z)
}.

(** The state of the process at start-up: static storage is zeroed. *)
Definition initial_world (caller_bufs : gmap nat (list Z)) : world :=
  World [] (replicate IFNAMSIZ 0) 0 caller_bufs.

Definition load (p : ptr) (w : world) : option (list Z) :=
  match p with
  | NULL => None
  | Global_tun_if_name => Some (tun_if_name w)
  | Buf i => bufs w !! i
  end.

Definition store (p : ptr) (v : list Z) (w : world) : option world :=
  match p with
  | NULL => None
  | Global_tun_if_name => Some (World (trace w) v (seq w) (bufs w))
  | Buf i => Some (World (trace w) (tun_if_name w) (seq w) (<[i := v]> (bufs w)))
  end.

Inductive outcome (A : Type) :=
| Ret (a : A) (w : world)          (* the function returned [a] *)
| Exit (status : Z) (w : world)    (* err()/errx() ended the process *)
| Abort (w : world)                (* an assertion failed *)
| Undef.                           (* behaviour not defined by C *)
Arguments Ret {A} a w.
Arguments Exit {A} status w.
Arguments Abort {A} w.
Arguments Undef {A}.

Definition M (A : Type) : Type := world -> outcome A.

#[global] Instance M_ret : MRet M := fun A a w => Ret a w.
#[global] Instance M_bind : MBind M := fun A B k m w =>
  match m w with
  | Ret a w' => k a w'
  | Exit s w' => Exit s w'
  | Abort w' => Abort w'
  | Undef => Undef
  end.

Definition undef {A} : M A := fun _ => Undef.
Definition lift {A} (o : option A) : M A :=
  match o with Some a => mret a | None => undef end.
Definition add_event (ev : event) (w : world) : world :=
  World (trace w ++ [ev]) (tun_if_name w) (seq w) (bufs w).
Definition emit (ev : event) : M unit := fun w => Ret tt (add_event ev w).
Definition get_trace : M (list event) := fun w => Ret (trace w) w.
Definition assert (b : bool) : M unit := fun w => if b then Ret tt w else Abort w.
Definition exit {A} (status : Z) : M A := fun w => Exit status w.

(** <err.h> *)
Definition warnx (fmt : string) (args : list fmt_arg) : M unit :=
  emit (Ediag Fwarnx fmt args).
Definition warn (fmt : string) (args : list fmt_arg) : M unit :=
  emit (Ediag Fwarn fmt args).
Definition err {A} (status : Z) (fmt : string) (args : list fmt_arg) : M A :=
  emit (Ediag Ferr fmt args) ;; exit status.
Definition errx {A} (status : Z) (fmt : string) (args : list fmt_arg) : M A :=
  emit (Ediag Ferrx fmt args) ;; exit status.

(** Reads and writes through a pointer. *)
Definition read_bytes (p : ptr) (off n : nat) : M (list Z) := fun w =>
  match load p w with
  | Some a => lift (read_at off n a) w
  | None => Undef
  end.

Definition write_bytes (p : ptr) (off : nat) (bs : list Z) : M unit := fun w =>
  match load p w with
  | Some a =>
      match write_at off bs a with
      | Some a' => match store p a' w with Some w' => Ret tt w' | None => Undef end
      | None => Undef
      end
  | None => Undef
  end.

Definition read_array (p : ptr) : M (list Z) := fun w => lift (load p w) w.

(** System calls. *)
Section Syscalls.
Variable h : host.

Definition sys_socket (domain type protocol : Z) : M Z :=
  t ← get_trace;
  let r := h_socket h t domain type protocol in
  emit (Esocket domain type protocol r) ;; mret r.

Definition sys_open (path : list Z) (flags : Z) : M Z :=
  t ← get_trace;
  let r := h_open h t path flags in
  emit (Eopen path flags r) ;; mret r.

(** The kernel answers in the caller's struct ifreq, whose name field is
    a char[IFNAMSIZ]. *)
Definition sys_ioctl_ifreq (fd : Z) (req : ifreq_request) (ifr : ifreq)
  : M (Z * ifreq) :=
  t ← get_trace;
  let '(r, res) := h_ioctl_ifreq h t fd req ifr in
  let res' := Ifreq (take IFNAMSIZ (ifr_name res ++ replicate IFNAMSIZ 0))
                    (ifr_flags res) in
  emit (Eioctl_ifreq fd req ifr r res') ;; mret (r, res').

Definition sys_ioctl_int (fd : Z) (req : int_request) (arg : Z) : M Z :=
  t ← get_trace;
  let r := h_ioctl_int h t fd req arg in
  emit (Eioctl_int fd req arg r) ;; mret r.

Definition sys_getifaddrs : M (Z * list ifaddrs) :=
  t ← get_trace;
  let '(r, l) := h_getifaddrs h t in
  emit (Egetifaddrs r) ;; mret (r, l).

Definition sys_freeifaddrs : M unit := emit Efreeifaddrs.

Definition sys_write (fd : Z) (msg : rt_message) : M Z :=
  t ← get_trace;
  let r := h_write h t fd msg in
  emit (Ewrite fd msg r) ;; mret r.

Definition sys_close (fd : Z) : M unit := emit (Eclose fd).

(** An automatic array [var] of [n] bytes, not initialised. *)
Definition stack_array (var : string) (n : nat) : M (list Z) :=
  t ← get_trace;
  mret (take n (h_stack h t var n ++ replicate n 0)).
End Syscalls.

(** ** tunif.c *)

(** struct tun_pi { __u16 flags; __be16 proto; } of <linux/if_tun.h> *)
Definition offsetof_pi_flags : nat := 0.
Definition offsetof_pi_proto : nat := 2.

(** The header of struct sockaddr: [sa_len] and [sa_family] are one byte
    each on BSD; Linux has no [sa_len] and a two-byte [sa_family]. *)
Definition set_sa_family (pf : platform) (e : endian) (af : Z) (sa : list Z)
  : option (list Z) :=
  match pf with
  | Linux => write_at 0 (encode e 2 af) sa
  | BSD => write_at 1 (encode e 1 af) sa
  end.

Definition set_sa_len (len : Z) (sa : list Z) : option (list Z) :=
  write_at 0 (encode LittleEndian 1 len) sa.

Definition get_sa_len (sa : list Z) : option Z := sa !! 0%nat.
Definition get_sa_family_bsd (sa : list Z) : option Z := sa !! 1%nat.

(** The global [tun_if_name] and the static [seq] of tun_route_add. *)
Definition read_tun_if_name : M (list Z) := fun w => Ret (tun_if_name w) w.

(** [++seq] on an int: overflow is not defined. *)
Definition pre_increment_seq : M Z := fun w =>
  if seq w <? INT_MAX
  then Ret (seq w + 1) (World (trace w) (tun_if_name w) (seq w + 1) (bufs w))
  else Undef.

Section Tunif.
Variable pf : platform.
Variable e : endian.
Variable h : host.

(** int tun_alloc(char *tun_if_name): the parameter hides the global of
    the same name; it is called [name] here. *)
Definition tun_alloc (name : ptr) : M Z :=
  assert (bool_decide (name ≠ NULL)) ;;
  udp_fd ← sys_socket h AF_INET SOCK_DGRAM 0;
  (if udp_fd =? -1
   then err EXIT_FAILURE "failed to open control socket for tun creation." []
   else mret tt) ;;
  tun_fd ←
    match pf with
    | Linux =>
        tun_fd ← sys_open h (bytes_of_string "/dev/net/tun") O_RDWR;
        (if tun_fd =? -1
         then err EXIT_FAILURE
                  "cannot create a control channel of the tun interface." []
         else mret tt) ;;
        src ← read_array name;
        n ← lift (strncpy src IFNAMSIZ);
        '(r, ifr) ← sys_ioctl_ifreq h tun_fd TUNSETIFF (Ifreq n IFF_TUN);
        (if r =? -1
         then sys_close tun_fd ;;
              err EXIT_FAILURE "cannot create a tun interface %s.\n" [ArgStr src]
         else mret tt) ;;
        n' ← lift (strncpy (ifr_name ifr) IFNAMSIZ);
        write_bytes name 0 n' ;;
        mret tun_fd
    | BSD =>
        src ← read_array name;
        n ← lift (strncpy src IFNAMSIZ);
        '(r, ifr) ← sys_ioctl_ifreq h udp_fd SIOCIFCREATE2 (Ifreq n 0);
        (if r =? -1
         then err EXIT_FAILURE "cannot create %s interface." [ArgStr (ifr_name ifr)]
         else mret tt) ;;
        n' ← lift (strncpy (ifr_name ifr) IFNAMSIZ);
        write_bytes name 0 n' ;;
        tun_dev_name ← stack_array h "tun_dev_name" MAXPATHLEN;
        tun_dev_name ← lift (strcat tun_dev_name (bytes_of_string "/dev/" ++ [0]));
        tun_dev_name ← lift (strcat tun_dev_name (ifr_name ifr));
        path ← lift (cstr tun_dev_name);
        tun_fd ← sys_open h path O_RDWR;
        (if tun_fd =? -1
         then err EXIT_FAILURE "cannot open a tun device %s." [ArgStr path]
         else mret tt) ;;
        let tun_iff_mode := IFF_POINTOPOINT in
        r ← sys_ioctl_int h tun_fd TUNSIFMODE tun_iff_mode;
        (if r =? -1
         then err EXIT_FAILURE "failed to set TUNSIFMODE to %x.\n" [ArgInt tun_iff_mode]
         else mret tt) ;;
        let on := 1 in
        r ← sys_ioctl_int h tun_fd TUNSIFHEAD on;
        (if r =? -1
         then err EXIT_FAILURE "failed to set TUNSIFHEAD to %d.\n" [ArgInt on]
         else mret tt) ;;
        mret tun_fd
    end;
  src ← read_array name;
  n ← lift (strncpy src IFNAMSIZ);
  '(r, _) ← sys_ioctl_ifreq h udp_fd SIOCSIFFLAGS (Ifreq n IFF_UP);
  (if r =? -1
   then err EXIT_FAILURE "failed to make %s up." [ArgStr src]
   else mret tt) ;;
  sys_close udp_fd ;;
  mret tun_fd.

(** int tun_dealloc(const char *tun_if_name), compiled on BSD only. *)
Definition tun_dealloc (name : ptr) : M Z :=
  udp_fd ← sys_socket h AF_INET SOCK_DGRAM 0;
  if udp_fd =? -1
  then warn "failed to open control socket for tun deletion." [] ;; mret (-1)
  else
    src ← read_array name;
    n ← lift (strncpy src IFNAMSIZ);
    '(r, ifr) ← sys_ioctl_ifreq h udp_fd SIOCIFDESTROY (Ifreq n 0);
    if r =? -1
    then warn "cannot destroy %s interface." [ArgStr (ifr_name ifr)] ;;
         sys_close udp_fd ;; mret (-1)
    else sys_close udp_fd ;; mret 0.

(** uint32_t tun_get_af(const void *buf) *)
Definition tun_get_af (buf : ptr) : M Z :=
  let af := 255 in
  match pf with
  | Linux =>
      proto ← read_bytes buf offsetof_pi_proto 2;
      let ether_type := ntohs e (decode e proto) in
      if ether_type =? ETH_P_IP then mret AF_INET
      else if ether_type =? ETH_P_IPV6 then mret (AF_INET6 pf)
      else warnx "unknown ether frame type %x received." [ArgInt ether_type] ;;
           mret af
  | BSD =>
      v ← read_bytes buf 0 4;
      mret (ntohl e (decode e v))
  end.

(** int tun_set_af(void *buf, uint32_t af) *)
Definition tun_set_af (buf : ptr) (af : Z) : M Z :=
  match pf with
  | Linux =>
      let store_pi (ether_type : Z) : M Z :=
        write_bytes buf offsetof_pi_flags (encode e 2 0) ;;
        write_bytes buf offsetof_pi_proto (encode e 2 (htons e ether_type)) ;;
        mret 0 in
      if af =? AF_INET then store_pi ETH_P_IP
      else if af =? AF_INET6 pf then store_pi ETH_P_IPV6
      else warnx "unsupported address family %d" [ArgInt af] ;; mret (-1)
  | BSD =>
      write_bytes buf 0 (encode e 4 (htonl e af)) ;;
      mret 0
  end.

(** static int tun_make_netmask(union sockunion *mask, int af, int prefix_len).
    [mask] is the union pointed to (the callers pass the address of a
    local, never null); the updated union is returned with the result. *)
Definition tun_make_netmask (mask : list Z) (af prefix_len : Z) : M (Z * list Z) :=
  assert (0 <? prefix_len) ;;
  '(max, sa_len, p) ←
    (if af =? AF_INET
     then mret (32, Z.of_nat sizeof_sockaddr_in, offsetof_sin_addr)
     else if af =? AF_INET6 pf
     then mret (128, Z.of_nat sizeof_sockaddr_in6, offsetof_sin6_addr)
     else errx EXIT_FAILURE "unsupported address family %d." [ArgInt af]);
  (if max <? prefix_len
   then errx EXIT_FAILURE "invalid prefix length %d." [ArgInt prefix_len]
   else mret tt) ;;
  let q := Z.shiftr prefix_len 3 in
  let r := Z.land prefix_len 7 in
  mask ← lift (set_sa_family pf e af mask);
  mask ← match pf with
         | Linux => mret mask
         | BSD => lift (set_sa_len sa_len mask)
         end;
  mask ← lift (write_at p (replicate (Z.to_nat (max / 8)) 0) mask);
  mask ← (if 0 <? q
          then lift (write_at p (replicate (Z.to_nat q) 255) mask)
          else mret mask);
  mask ← (if 0 <? r
          then lift (write_at (p + Z.to_nat q)
                              [Z.land (Z.shiftr 65280 r) 255] mask)
          else mret mask);
  mret (0, mask).
End Tunif.

Section RouteAdd.
Variable e : endian.
Variable h : host.

(** SA_SIZE of <net/route.h>: [sa_len] rounded up to a multiple of
    sizeof(long), and sizeof(long) for an empty address. *)
Definition SA_SIZE (sa : list Z) : option Z :=
  match get_sa_len sa with
  | Some len =>
      Some (if len =? 0 then h_sizeof_long h
            else 1 + Z.lor (len - 1) (h_sizeof_long h - 1))
  | None => None
  end.

(** NEXTADDR(w, u): append the address block [u] at [cp] when the bit [w]
    is set; [cp] is the part of [m_space] filled so far. *)
Definition NEXTADDR (rtm_addrs w : Z) (u : list Z) (cp : list Z) : M (list Z) :=
  if Z.land rtm_addrs w =? 0 then mret cp
  else
    l ← lift (SA_SIZE u);
    block ← lift (read_at 0 (Z.to_nat l) u);
    if decide (length cp + length block <= 512)%nat
    then mret (cp ++ block)
    else undef.

(** The loop over the list of getifaddrs(): the last AF_LINK entry named
    like [tun_if_name] wins.  The outer [None] is a read through a null
    [ifa_addr] or past the end of a name. *)
Fixpoint find_sdl (name : list Z) (ifap : list ifaddrs) (sdlp : option (list Z))
  : option (option (list Z)) :=
  match ifap with
  | [] => Some sdlp
  | ifa :: ifa_next =>
      match ifa_addr ifa with
      | None => None
      | Some sa =>
          match get_sa_family_bsd sa with
          | None => None
          | Some fam =>
              if negb (fam =? AF_LINK) then find_sdl name ifa_next sdlp
              else
                match strcmp name (ifa_name ifa) with
                | None => None
                | Some c =>
                    if negb (c =? 0) then find_sdl name ifa_next sdlp
                    else find_sdl name ifa_next (Some sa)
                end
          end
      end
  end.

(** memset(&so.sin, 0, size); so.sin.sin_len = size; so.sin.sin_family = af *)
Definition init_sockaddr (size : nat) (af : Z) (so : list Z) : option (list Z) :=
  so ← write_at 0 (replicate size 0) so;
  so ← set_sa_len (Z.of_nat size) so;
  set_sa_family BSD e af so.

(** tun_route_add after the switch on [af], BSD. *)
Definition tun_route_add_install (rtm_addrs rtm_flags : Z)
    (so_dst so_gate so_mask : list Z) : M Z :=
  '(r, ifap) ← sys_getifaddrs h;
  (if negb (r =? 0)
   then err EXIT_FAILURE "cannot get ifaddrs." []
   else mret tt) ;;
  name ← read_tun_if_name;
  sdlp ← lift (find_sdl name ifap None);
  so_gate ←
    match sdlp with
    | None => undef            (* memcpy reads sdlp->sdl_len *)
    | Some sdl =>
        sdl_len ← lift (get_sa_len sdl);
        src ← lift (read_at 0 (Z.to_nat sdl_len) sdl);
        lift (write_at 0 src so_gate)
    end;
  sys_freeifaddrs ;;
  match sdlp with
  | None => errx EXIT_FAILURE "cannot find a link-layer address of %s."
                 [ArgStr name]
  | Some _ => mret tt
  end ;;
  let rtm_addrs := Z.lor rtm_addrs RTA_GATEWAY in
  let cp := [] in
  seq' ← pre_increment_seq;
  cp ← NEXTADDR rtm_addrs RTA_DST so_dst cp;
  cp ← NEXTADDR rtm_addrs RTA_GATEWAY so_gate cp;
  cp ← NEXTADDR rtm_addrs RTA_NETMASK so_mask cp;
  let l := h_sizeof_rt_msghdr h + Z.of_nat (length cp) in
  let m_rtmsg := RtMessage l RTM_VERSION RTM_ADD rtm_flags rtm_addrs seq' cp in
  route_fd ← sys_socket h PF_ROUTE SOCK_RAW 0;
  (if route_fd =? -1
   then err EXIT_FAILURE "failed to open a routing socket." []
   else mret tt) ;;
  write_len ← sys_write h route_fd m_rtmsg;
  (if write_len =? -1
   then err EXIT_FAILURE "failed to install route information." []
   else mret tt) ;;
  sys_close route_fd ;;
  mret 0.

(** One case of the switch on [af]: destination, and netmask when the
    prefix is shorter than the address. *)
Definition tun_route_add_family (af : Z) (size addr_off addr_len : nat)
    (max : Z) (addr : ptr) (prefix_len : Z) : M Z :=
  let rtm_addrs := 0 in
  let rtm_flags := Z.lor (Z.lor RTF_UP RTF_HOST) RTF_STATIC in
  so_dst ← stack_array h "so_dst" (h_sizeof_sockunion h);
  so_gate ← stack_array h "so_gate" (h_sizeof_sockunion h);
  so_mask ← stack_array h "so_mask" (h_sizeof_sockunion h);
  so_dst ← lift (init_sockaddr size af so_dst);
  a ← read_bytes addr 0 addr_len;
  so_dst ← lift (write_at addr_off a so_dst);
  let rtm_addrs := Z.lor rtm_addrs RTA_DST in
  if prefix_len <? max then
    so_mask ← lift (init_sockaddr size af so_mask);
    '(_, so_mask) ← tun_make_netmask BSD e so_mask af prefix_len;
    let rtm_addrs := Z.lor rtm_addrs RTA_NETMASK in
    let rtm_flags := Z.land rtm_flags (Z.lnot RTF_HOST) in
    tun_route_add_install rtm_addrs rtm_flags so_dst so_gate so_mask
  else
    tun_route_add_install rtm_addrs rtm_flags so_dst so_gate so_mask.

(** int tun_route_add(int af, const void *addr, int prefix_len) *)
Definition tun_route_add (pf : platform) (af : Z) (addr : ptr) (prefix_len : Z)
  : M Z :=
  assert (bool_decide (addr ≠ NULL)) ;;
  assert (0 <=? prefix_len) ;;
  match pf with
  | Linux =>
      warnx "built-in route manipulation is not supported yet." [] ;;
      mret 0
  | BSD =>
      if af =? AF_INET then
        tun_route_add_family AF_INET sizeof_sockaddr_in offsetof_sin_addr
                             sizeof_in_addr 32 addr prefix_len
      else if af =? AF_INET6 BSD then
        tun_route_add_family (AF_INET6 BSD) sizeof_sockaddr_in6 offsetof_sin6_addr
                             sizeof_in6_addr 128 addr prefix_len
      else
        warnx "unsupported address family %d" [ArgInt af] ;;
        mret (-1)
  end.

(** The calls of tun_route_add that a process makes, one after the other. *)
Fixpoint route_calls (pf : platform) (calls : list (Z * ptr * Z)) : M unit :=
  match calls with
  | [] => mret tt
  | (af, addr, prefix_len) :: rest =>
      tun_route_add pf af addr prefix_len ;; route_calls pf rest
  end.
End RouteAdd.

(** The sequence numbers of the routing messages written, oldest first. *)
Fixpoint written_seqs (t : list event) : list Z :=
  match t with
  | [] => []
  | Ewrite _ msg _ :: t' => rtm_seq msg :: written_seqs t'
  | _ :: t' => written_seqs t'
  end.

(** The world an outcome leaves behind. *)
Definition final_world {A} (o : outcome A) : option world :=
  match o with
  | Ret _ w | Exit _ w | Abort w => Some w
  | Undef => None
  end.

(** The paths handed to open(), oldest first. *)
Fixpoint opened_paths (t : list event) : list (list Z) :=
  match t with
  | [] => []
  | Eopen path _ _ :: t' => path :: opened_paths t'
  | _ :: t' => opened_paths t'
  end.

Definition is_write (ev : event) : bool :=
  match ev with Ewrite _ _ _ => true | _ => false end.

(** ** Vocabulary of the statements *)

(** The two address families, with what the switches of
    tun_make_netmask and tun_route_add attach to each. *)
Inductive family := IPv4 | IPv6.

Definition family_af (pf : platform) (F : family) : Z :=
  match F with IPv4 => AF_INET | IPv6 => AF_INET6 pf end.
Definition family_max (F : family) : Z :=
  match F with IPv4 => 32 | IPv6 => 128 end.
Definition family_addr_len (F : family) : nat :=
  match F with IPv4 => sizeof_in_addr | IPv6 => sizeof_in6_addr end.
Definition family_addr_off (F : family) : nat :=
  match F with IPv4 => offsetof_sin_addr | IPv6 => offsetof_sin6_addr end.
Definition family_sockaddr_size (F : family) : nat :=
  match F with IPv4 => sizeof_sockaddr_in | IPv6 => sizeof_sockaddr_in6 end.

(** The netmask as the specification words it: [p / 8] bytes 0xFF, then,
    when [p mod 8] is not zero, the byte [(0xFF00 >> (p mod 8)) & 0xFF],
    then zeros up to [len] bytes. *)
Definition netmask_spec (len : nat) (p : Z) : list Z :=
  let q := Z.to_nat (p / 8) in
  let r := p mod 8 in
  replicate q 255 ++
  (if r =? 0 then [] else [Z.land (Z.shiftr 65280 r) 255]) ++
  replicate (len - q - (if r =? 0 then 0 else 1)) 0.

(** The control call that creates the interface. *)
Definition create_request (pf : platform) : ifreq_request :=
  match pf with Linux => TUNSETIFF | BSD => SIOCIFCREATE2 end.

(** A list of sequence numbers that counts 1, 2, 3, ... *)
Definition numbered (l : list Z) : Prop :=
  forall i s, l !! i = Some s -> s = Z.of_nat i + 1.

(** The counter [seq] is [d] ahead of the number of messages written. *)
Definition seq_inv (d : Z) (w : world) : Prop :=
  numbered (written_seqs (trace w)) /\
  Z.of_nat (length (written_seqs (trace w))) + d = seq w.

Definition seq_ok (w : world) : Prop := seq_inv 0 w \/ seq_inv 1 w.

Definition diag_stable (P : world -> Prop) : Prop :=
  forall fn fmt args w, P w -> P (add_event (Ediag fn fmt args) w).

(** Weakest preconditions: [Q] for a return, [E] for an exit or a failed
    assertion; nothing is asked of undefined behaviour. *)
Definition wp {A} (m : M A) (Q : A -> world -> Prop) (E : world -> Prop)
    (w : world) : Prop :=
  match m w with
  | Ret a w' => Q a w'
  | Exit _ w' | Abort w' => E w'
  | Undef => True
  end.

(** ** A host and a process to run the code on *)

Definition c_string (s : string) : list Z := bytes_of_string s ++ [0].

(** A kernel that grants every request, names the new interface tun0 and
    lists the interface addresses [ifs]; automatic arrays start out
    holding [stack]. *)
Definition example_host (stack : list Z) (ifs : list ifaddrs) : host :=
  Host (fun _ _ _ _ => 3)
       (fun _ _ _ => 4)
       (fun _ _ req ifr =>
          match req with
          | TUNSETIFF | SIOCIFCREATE2 =>
              (0, Ifreq (c_string "tun0") (ifr_flags ifr))
          | _ => (0, ifr)
          end)
       (fun _ _ _ _ => 0)
       (fun _ => (0, ifs))
       (fun _ _ msg => rtm_msglen msg)
       (fun _ _ _ => stack)
       8 152 56.

(** A link-layer entry (struct sockaddr_dl) and an IPv4 entry of the
    interface [name]. *)
Definition link_entry (name : string) : ifaddrs :=
  Ifaddrs (c_string name)
          (Some ([16; AF_LINK; 1; 0; 0; Z.of_nat (String.length name); 0; 0] ++
                 bytes_of_string name ++ replicate (8 - String.length name) 0)).
Definition inet_entry (name : string) : ifaddrs :=
  Ifaddrs (c_string name)
          (Some ([16; AF_INET; 0; 0; 127; 0; 0; 1] ++ replicate 8 0)).

Definition host_with_tun : host :=
  example_host [] [inet_entry "lo0"; link_entry "lo0"; link_entry "tun0"].
Definition host_without_tun : host :=
  example_host [] [inet_entry "lo0"; link_entry "lo0"].

(** Buffers of the caller: 0 holds the requested name, 1 an IPv4 address,
    2 an IPv6 address, 3 a packet header. *)
Definition example_world : world :=
  initial_world
    {[ 0%nat := bytes_of_string "tun" ++ replicate 13 0;
       1%nat := [192; 0; 2; 0];
       2%nat := [32; 1; 13; 184; 0; 0; 0; 0; 0; 0; 0; 0; 0; 0; 0; 1];
       3%nat := [0; 0; 0; 0] ]}.

Definition world_of {A} (o : outcome A) : world :=
  match final_world o with Some w => w | None => example_world end.

(** ** Vocabulary of the further properties *)

(** The four header bytes on the wire. *)
Definition wire_header (pf : platform) (F : family) : list Z :=
  match pf, F with
  | Linux, IPv4 => [0; 0; 8; 0]        (* flags 0, ETH_P_IP *)
  | Linux, IPv6 => [0; 0; 134; 221]    (* flags 0, ETH_P_IPV6 *)
  | BSD, IPv4 => [0; 0; 0; 2]
  | BSD, IPv6 => [0; 0; 0; 28]
  end.

(** The first two bytes of a socket address after tun_make_netmask. *)
Definition sockaddr_header (pf : platform) (e : endian) (F : family) : list Z :=
  match pf with
  | Linux => encode e 2 (family_af pf F)
  | BSD => [Z.of_nat (family_sockaddr_size F); family_af pf F]
  end.

(** A routing message as tun_route_add builds it for a prefix of [p] bits
    in a family whose addresses have [max] bits. *)
Definition route_msg_ok (h : host) (max p : Z) (msg : rt_message) : Prop :=
  rtm_type msg = RTM_ADD /\ rtm_version msg = RTM_VERSION /\
  rtm_msglen msg = h_sizeof_rt_msghdr h + Z.of_nat (length (m_space msg)) /\
  (length (m_space msg) <= 512)%nat /\
  (if p <? max
   then rtm_flags msg = Z.lor RTF_UP RTF_STATIC /\
        rtm_addrs msg = Z.lor (Z.lor RTA_DST RTA_GATEWAY) RTA_NETMASK
   else rtm_flags msg = Z.lor (Z.lor RTF_UP RTF_HOST) RTF_STATIC /\
        rtm_addrs msg = Z.lor RTA_DST RTA_GATEWAY).

Definition writes_ok (P : rt_message -> Prop) (t : list event) : Prop :=
  forall fd msg r, Ewrite fd msg r ∈ t -> P msg.

Definition extends_with (w : world) (Phi : list event -> Prop) (w' : world) : Prop :=
  exists t, trace w' = trace w ++ t /\ Phi t.

(** A system call that reported failure, by the test the code applies to
    its result. *)
Definition call_failed (ev : event) : bool :=
  match ev with
  | Esocket _ _ _ r | Eopen _ _ r | Eioctl_ifreq _ _ _ r _
  | Eioctl_int _ _ _ r | Ewrite _ _ r => r =? -1
  | Egetifaddrs r => negb (r =? 0)
  | _ => false
  end.

(** What a routing message says of its destination. *)
Definition route_dst_ok (F : family) (a : list Z) (msg : rt_message) : Prop :=
  take 2 (m_space msg) = [Z.of_nat (family_sockaddr_size F); family_af BSD F] /\
  read_at (family_addr_off F) (family_addr_len F) (m_space msg) =
    Some (take (family_addr_len F) a).

(** The process once tun_alloc has created tun0 through the exported name. *)
Definition created_world : world :=
  world_of (tun_alloc BSD host_with_tun Global_tun_if_name example_world).

(** * Proofs *)

(** ** Running the monad *)

Lemma lift_Some_run {A} (a : A) w : lift (Some a) w = Ret a w.
Proof. done. Qed.

Lemma mret_run {A} (a : A) (w : world) : (mret a : M A) w = Ret a w.
Proof. done. Qed.

Lemma bind_run {A B} (m : M A) (k : A -> M B) w :
  (m ≫= k) w = match m w with
               | Ret a w' => k a w'
               | Exit s w' => Exit s w'
               | Abort w' => Abort w'
               | Undef => Undef
               end.
Proof. reflexivity. Qed.

(** ** Arrays *)

Lemma write_at_length off bs (a a' : list Z) :
  write_at off bs a = Some a' -> length a' = length a.
Proof.
  unfold write_at. case_decide; [|done]. intros [= <-].
  rewrite !length_app, length_take, length_drop. lia.
Qed.

Lemma write_at_is_Some off bs (a : list Z) :
  (off + length bs <= length a)%nat -> is_Some (write_at off bs a).
Proof. unfold write_at. intros. case_decide; [eauto|lia]. Qed.

Lemma write_at_Some off bs (a : list Z) :
  (off + length bs <= length a)%nat ->
  write_at off bs a = Some (take off a ++ bs ++ drop (off + length bs) a).
Proof. unfold write_at. intros. case_decide; [done|lia]. Qed.

Lemma read_at_Some off n (a : list Z) :
  (off + n <= length a)%nat -> read_at off n a = Some (take n (drop off a)).
Proof. unfold read_at. intros. case_decide; [done|lia]. Qed.

Lemma read_write_at off bs (a a' : list Z) :
  write_at off bs a = Some a' -> read_at off (length bs) a' = Some bs.
Proof.
  unfold write_at, read_at. case_decide; [|done]. intros [= <-].
  rewrite !length_app, length_take, length_drop.
  case_decide; [|lia].
  f_equal. rewrite drop_app_length'; [|rewrite length_take; lia].
  by rewrite take_app_length.
Qed.

Lemma write_at_take bs (a a' : list Z) :
  write_at 0 bs a = Some a' -> take (length bs) a' = bs.
Proof.
  unfold write_at. case_decide; [|done]. intros [= <-]. simpl.
  by rewrite take_app_length.
Qed.

Lemma read_at_inv off n (a mid : list Z) :
  read_at off n a = Some mid ->
  exists pre post, a = pre ++ mid ++ post /\ length pre = off /\ length mid = n.
Proof.
  unfold read_at. case_decide; [|done]. intros [= <-].
  exists (take off a), (drop n (drop off a)).
  rewrite take_drop, take_drop, !length_take, length_drop. split; [done|lia].
Qed.

Lemma read_at_app3 (pre mid post : list Z) :
  read_at (length pre) (length mid) (pre ++ mid ++ post) = Some mid.
Proof.
  rewrite read_at_Some by (rewrite !length_app; lia).
  by rewrite drop_app_length, take_app_length.
Qed.

(** A write inside the region [off, off + n) of an array, seen from the region. *)
Lemma write_region off n i bs (a mid : list Z) :
  read_at off n a = Some mid -> (i + length bs <= n)%nat ->
  exists a', write_at (off + i) bs a = Some a' /\
             read_at off n a' = Some (take i mid ++ bs ++ drop (i + length bs) mid) /\
             length a' = length a.
Proof.
  intros Hr Hi.
  destruct (read_at_inv _ _ _ _ Hr) as (pre & post & -> & <- & <-).
  exists (pre ++ (take i mid ++ bs ++ drop (i + length bs) mid) ++ post).
  assert (Hlen : length (take i mid ++ bs ++ drop (i + length bs) mid) = length mid)
    by (rewrite !length_app, length_take, length_drop; lia).
  split; [|split].
  - rewrite write_at_Some by (rewrite !length_app; lia).
    rewrite take_app_add, <- Nat.add_assoc, drop_app_add.
    rewrite take_app_le, drop_app_le by lia. by rewrite <- !app_assoc.
  - rewrite <- Hlen at 1. apply read_at_app3.
  - rewrite !length_app in *. lia.
Qed.

(** A write that ends before the region leaves it as it was. *)
Lemma write_before_region off n j bs (a a' : list Z) :
  write_at j bs a = Some a' -> (j + length bs <= off)%nat ->
  read_at off n a' = read_at off n a /\ length a' = length a.
Proof.
  intros Hw Hj. pose proof (write_at_length _ _ _ _ Hw) as Hlen.
  split; [|done].
  unfold write_at in Hw. case_decide; [|done]. injection Hw as <-.
  unfold read_at. rewrite Hlen. case_decide; [|done]. do 2 f_equal.
  rewrite app_assoc, drop_app_ge by (rewrite length_app, length_take; lia).
  rewrite drop_drop. f_equal. rewrite length_app, length_take. lia.
Qed.

Lemma strncpy_length src n bs : strncpy src n = Some bs -> length bs = n.
Proof.
  revert src bs. induction n as [|n IH]; intros src bs; simpl.
  - by intros [= <-].
  - destruct src as [|c src]; [done|]. destruct (c =? 0).
    + intros [= <-]. simpl. by rewrite length_replicate.
    + destruct (strncpy src n) eqn:E; simpl; [|done]. intros [= <-].
      simpl. f_equal. by eapply IH.
Qed.

(** ** Byte order *)

Lemma le_bytes_length n v : length (le_bytes n v) = n.
Proof. revert v; induction n; simpl; auto. Qed.

Lemma encode_length e n v : length (encode e n v) = n.
Proof. destruct e; simpl; rewrite ?length_rev; apply le_bytes_length. Qed.

Lemma byte_split b x : byte_ok b ->
  Z.land (Z.lor b (Z.shiftl x 8)) 255 = b /\ Z.shiftr (Z.lor b (Z.shiftl x 8)) 8 = x.
Proof.
  unfold byte_ok. intros Hb.
  assert (Hhi : forall i, 8 <= i -> Z.testbit b i = false).
  { intros i Hi. destruct (Z.eq_dec b 0) as [->|]; [apply Z.bits_0|].
    apply Z.bits_above_log2; [lia|].
    apply Z.log2_lt_pow2; [lia|].
    pose proof (Z.pow_le_mono_r 2 8 i ltac:(lia) Hi) as Hp.
    change (2 ^ 8) with 256 in Hp. lia. }
  change 255 with (Z.ones 8).
  split; Z.bitblast.
  all: try (rewrite Hhi by lia); subst; try (rewrite (Z.testbit_neg_r x) by lia).
  all: by rewrite ?orb_false_r, ?andb_true_r, ?andb_false_r.
Qed.

Lemma le_bytes_le_value bs :
  Forall byte_ok bs -> le_bytes (length bs) (le_value bs) = bs.
Proof.
  induction 1 as [|b bs Hb _ IH]; simpl; [done|].
  destruct (byte_split b (le_value bs) Hb) as [-> ->]. by rewrite IH.
Qed.

Lemma le_bytes_ok n v : Forall byte_ok (le_bytes n v).
Proof.
  revert v; induction n; intros v; simpl; constructor; [|auto].
  unfold byte_ok. change 255 with (Z.ones 8). rewrite Z.land_ones by lia.
  change (2 ^ 8) with 256. apply Z.mod_pos_bound. lia.
Qed.

Lemma le_value_le_bytes n v :
  le_value (le_bytes n v) = v mod 2 ^ (8 * Z.of_nat n).
Proof.
  revert v; induction n; intros v.
  - simpl. by rewrite Z.mod_1_r.
  - cbn [le_bytes le_value]. rewrite IHn.
    replace (8 * Z.of_nat (S n)) with (8 * Z.of_nat n + 8) by lia.
    rewrite <- !Z.land_ones by lia. change 255 with (Z.ones 8).
    Z.bitblast.
Qed.

Lemma bswap_le_value bs :
  Forall byte_ok bs -> bswap (length bs) (le_value bs) = le_value (rev bs).
Proof. intros H. unfold bswap. by rewrite le_bytes_le_value. Qed.

(** A value converted to network order is stored most significant byte first. *)
Lemma encode_htons e v : encode e 2 (htons e v) = rev (le_bytes 2 v).
Proof.
  destruct e; [|done]. unfold htons, bswap, encode.
  rewrite <- (le_bytes_length 2 v) at 1. rewrite <- length_rev.
  apply le_bytes_le_value, Forall_rev, le_bytes_ok.
Qed.

Lemma encode_htonl e v : encode e 4 (htonl e v) = rev (le_bytes 4 v).
Proof.
  destruct e; [|done]. unfold htonl, bswap, encode.
  rewrite <- (le_bytes_length 4 v) at 1. rewrite <- length_rev.
  apply le_bytes_le_value, Forall_rev, le_bytes_ok.
Qed.

Lemma ntohs_decode e bs :
  length bs = 2%nat -> Forall byte_ok bs -> ntohs e (decode e bs) = be_value bs.
Proof.
  intros Hl Hb. destruct e; [|done]. unfold ntohs, htons, decode.
  rewrite <- Hl. by apply bswap_le_value.
Qed.

Lemma ntohl_decode e bs :
  length bs = 4%nat -> Forall byte_ok bs -> ntohl e (decode e bs) = be_value bs.
Proof.
  intros Hl Hb. destruct e; [|done]. unfold ntohl, htonl, decode.
  rewrite <- Hl. by apply bswap_le_value.
Qed.

Lemma be_value_be_bytes n v : be_value (rev (le_bytes n v)) = v mod 2 ^ (8 * Z.of_nat n).
Proof. unfold be_value. rewrite rev_involutive. apply le_value_le_bytes. Qed.

Lemma ntohs_stored e v :
  ntohs e (decode e (encode e 2 (htons e v))) = v mod 65536.
Proof.
  rewrite encode_htons, ntohs_decode, be_value_be_bytes; [done| |].
  - by rewrite length_rev, le_bytes_length.
  - apply Forall_rev, le_bytes_ok.
Qed.

Lemma ntohl_stored e v :
  ntohl e (decode e (encode e 4 (htonl e v))) = v mod 4294967296.
Proof.
  rewrite encode_htonl, ntohl_decode, be_value_be_bytes; [done| |].
  - by rewrite length_rev, le_bytes_length.
  - apply Forall_rev, le_bytes_ok.
Qed.

(** ** Memory *)

(** Memory *)
Lemma load_store p v w w' : store p v w = Some w' -> load p w' = Some v.
Proof.
  destruct p; simpl; intros [= <-]; simpl; [done|]. apply lookup_insert_eq.
Qed.

Lemma store_trace p v w w' : store p v w = Some w' -> trace w' = trace w /\ seq w' = seq w.
Proof. destruct p; simpl; intros [= <-]; done. Qed.

Lemma store_is_Some p v w : is_Some (load p w) -> is_Some (store p v w).
Proof. destruct p; simpl; eauto. intros [? [=]]. Qed.

Lemma store_other p v w w' :
  store p v w = Some w' -> p <> Global_tun_if_name -> tun_if_name w' = tun_if_name w.
Proof. destruct p; simpl; intros [= <-] ?; done. Qed.

Lemma load_add_event p ev w : load p (add_event ev w) = load p w.
Proof. by destruct p. Qed.

Lemma write_bytes_run p off bs a w :
  load p w = Some a -> (off + length bs <= length a)%nat ->
  exists a' w', write_bytes p off bs w = Ret tt w' /\ write_at off bs a = Some a' /\
                store p a' w = Some w'.
Proof.
  intros Hl Hlen. destruct (write_at_is_Some off bs a Hlen) as [a' Ha'].
  destruct (store_is_Some p a' w) as [w' Hw']; [eauto|].
  exists a', w'. unfold write_bytes. by rewrite Hl, Ha', Hw'.
Qed.

Lemma read_bytes_run p off n a w :
  load p w = Some a -> read_bytes p off n w = lift (read_at off n a) w.
Proof. intros H. unfold read_bytes. by rewrite H. Qed.

Lemma stack_array_run h var n w :
  exists a, stack_array h var n w = Ret a w /\ length a = n.
Proof.
  eexists. split; [reflexivity|].
  rewrite length_take, length_app, length_replicate. lia.
Qed.

(** ** A weakest-precondition calculus for [M] *)

Section WP.
Context {A B : Type}.
Implicit Types (Q : A -> world -> Prop) (E : world -> Prop) (w : world).

Lemma wp_bind (m : M A) (k : A -> M B) (Q' : B -> world -> Prop) E w :
  wp m (fun a w' => wp (k a) Q' E w') E w -> wp (m ≫= k) Q' E w.
Proof. unfold wp. rewrite bind_run. by destruct (m w). Qed.

Lemma wp_mret (a : A) Q E w : Q a w -> wp (mret a) Q E w.
Proof. done. Qed.

Lemma wp_lift (o : option A) Q E w :
  (forall a, o = Some a -> Q a w) -> wp (lift o) Q E w.
Proof. destruct o; unfold wp; simpl; auto. Qed.

Lemma wp_undef Q E w : wp (@undef A) Q E w.
Proof. done. Qed.

Lemma wp_err status fmt args Q E w :
  E (add_event (Ediag Ferr fmt args) w) -> wp (@err A status fmt args) Q E w.
Proof. done. Qed.

Lemma wp_errx status fmt args Q E w :
  E (add_event (Ediag Ferrx fmt args) w) -> wp (@errx A status fmt args) Q E w.
Proof. done. Qed.

Lemma wp_run (m : M A) Q E w a w' : wp m Q E w -> m w = Ret a w' -> Q a w'.
Proof. unfold wp. intros H Hr. by rewrite Hr in H. Qed.

Lemma wp_final (m : M A) (P : world -> Prop) w w' :
  wp m (fun _ => P) P w -> final_world (m w) = Some w' -> P w'.
Proof. unfold wp. destruct (m w); simpl; intros H [= <-]; done. Qed.

End WP.

Lemma wp_emit ev (Q : unit -> world -> Prop) E w :
  Q tt (add_event ev w) -> wp (emit ev) Q E w.
Proof. done. Qed.

Lemma wp_assert b (Q : unit -> world -> Prop) (E : world -> Prop) w :
  (b = true -> Q tt w) -> (b = false -> E w) -> wp (assert b) Q E w.
Proof. destruct b; unfold wp; simpl; auto. Qed.

Lemma wp_read_array p (Q : list Z -> world -> Prop) E w :
  (forall a, load p w = Some a -> Q a w) -> wp (read_array p) Q E w.
Proof. unfold wp, read_array. destruct (load p w); simpl; auto. Qed.

Lemma wp_read_bytes p off n (Q : list Z -> world -> Prop) E w :
  (forall a bs, load p w = Some a -> read_at off n a = Some bs -> Q bs w) ->
  wp (read_bytes p off n) Q E w.
Proof.
  unfold wp, read_bytes. destruct (load p w); [|done].
  destruct (read_at off n l) eqn:?; simpl; eauto.
Qed.

Lemma wp_write_bytes p off bs (Q : unit -> world -> Prop) E w :
  (forall a a' w', load p w = Some a -> write_at off bs a = Some a' ->
                   store p a' w = Some w' -> Q tt w') ->
  wp (write_bytes p off bs) Q E w.
Proof.
  unfold wp, write_bytes. destruct (load p w); [|done].
  destruct (write_at off bs l) eqn:?; [|done].
  destruct (store p l0 w) eqn:?; eauto.
Qed.

Lemma wp_read_tun_if_name (Q : list Z -> world -> Prop) E w :
  Q (tun_if_name w) w -> wp read_tun_if_name Q E w.
Proof. done. Qed.

Lemma wp_pre_increment_seq (Q : Z -> world -> Prop) E w :
  (seq w < INT_MAX ->
   Q (seq w + 1) (World (trace w) (tun_if_name w) (seq w + 1) (bufs w))) ->
  wp pre_increment_seq Q E w.
Proof.
  unfold wp, pre_increment_seq. destruct (seq w <? INT_MAX) eqn:H; [|done].
  apply Z.ltb_lt in H. auto.
Qed.

Section WPSys.
Variable h : host.

Lemma wp_sys_socket d t p (Q : Z -> world -> Prop) E w :
  (let r := h_socket h (trace w) d t p in Q r (add_event (Esocket d t p r) w)) ->
  wp (sys_socket h d t p) Q E w.
Proof. done. Qed.

Lemma wp_sys_open path fl (Q : Z -> world -> Prop) E w :
  (let r := h_open h (trace w) path fl in Q r (add_event (Eopen path fl r) w)) ->
  wp (sys_open h path fl) Q E w.
Proof. done. Qed.

Lemma wp_sys_ioctl_ifreq fd req ifr (Q : Z * ifreq -> world -> Prop) E w :
  (forall r res,
      length (ifr_name res) = IFNAMSIZ ->
      Q (r, res) (add_event (Eioctl_ifreq fd req ifr r res) w)) ->
  wp (sys_ioctl_ifreq h fd req ifr) Q E w.
Proof.
  intros H. unfold wp, sys_ioctl_ifreq, get_trace. rewrite bind_run.
  cbv beta iota.
  destruct (h_ioctl_ifreq h (trace w) fd req ifr) as [r res].
  set (res' := Ifreq _ _).
  assert (Hlen : length (ifr_name res') = IFNAMSIZ).
  { unfold res', ifr_name.
    rewrite length_take, length_app, length_replicate. lia. }
  clearbody res'. exact (H r res' Hlen).
Qed.

Lemma wp_sys_ioctl_int fd req arg (Q : Z -> world -> Prop) E w :
  (forall r, Q r (add_event (Eioctl_int fd req arg r) w)) ->
  wp (sys_ioctl_int h fd req arg) Q E w.
Proof. intros H. apply H. Qed.

Lemma wp_sys_getifaddrs (Q : Z * list ifaddrs -> world -> Prop) E w :
  (forall r l, Q (r, l) (add_event (Egetifaddrs r) w)) ->
  wp (sys_getifaddrs h) Q E w.
Proof.
  intros H. unfold wp, sys_getifaddrs, get_trace. rewrite bind_run.
  cbv beta iota.
  destruct (h_getifaddrs h (trace w)) as [r l]. apply H.
Qed.

Lemma wp_sys_write fd msg (Q : Z -> world -> Prop) E w :
  (forall r, Q r (add_event (Ewrite fd msg r) w)) ->
  wp (sys_write h fd msg) Q E w.
Proof. intros H. apply H. Qed.

Lemma wp_stack_array var n (Q : list Z -> world -> Prop) E w :
  (forall a, length a = n -> Q a w) -> wp (stack_array h var n) Q E w.
Proof.
  intros H. apply H. rewrite length_take, length_app, length_replicate. lia.
Qed.

End WPSys.

Lemma wp_sys_close fd (Q : unit -> world -> Prop) E w :
  Q tt (add_event (Eclose fd) w) -> wp (sys_close fd) Q E w.
Proof. done. Qed.

Lemma wp_sys_freeifaddrs (Q : unit -> world -> Prop) E w :
  Q tt (add_event Efreeifaddrs w) -> wp sys_freeifaddrs Q E w.
Proof. done. Qed.

(** One step of a proof by weakest preconditions: the rule of the command at
    the head of the program. *)
Ltac wp_step :=
  cbv beta iota;
  lazymatch goal with
  | |- wp (_ ≫= _) _ _ _ => apply wp_bind
  | |- wp (mret _) _ _ _ => apply wp_mret
  | |- wp (lift _) _ _ _ => apply wp_lift; intros ? ?
  | |- wp undef _ _ _ => apply wp_undef
  | |- wp (err _ _ _) _ _ _ => apply wp_err
  | |- wp (errx _ _ _) _ _ _ => apply wp_errx
  | |- wp (warnx _ _) _ _ _ => apply wp_emit
  | |- wp (warn _ _) _ _ _ => apply wp_emit
  | |- wp (emit _) _ _ _ => apply wp_emit
  | |- wp (assert _) _ _ _ => apply wp_assert; intros ?
  | |- wp (read_array _) _ _ _ => apply wp_read_array; intros ? ?
  | |- wp (read_bytes _ _ _) _ _ _ => apply wp_read_bytes; intros ? ? ? ?
  | |- wp (write_bytes _ _ _) _ _ _ => apply wp_write_bytes; intros ? ? ? ? ? ?
  | |- wp read_tun_if_name _ _ _ => apply wp_read_tun_if_name
  | |- wp pre_increment_seq _ _ _ => apply wp_pre_increment_seq; intros ?
  | |- wp (sys_socket _ _ _ _) _ _ _ =>
      apply wp_sys_socket; let r := fresh "r" in intros r; clearbody r
  | |- wp (sys_open _ _ _) _ _ _ =>
      apply wp_sys_open; let r := fresh "r" in intros r; clearbody r
  | |- wp (sys_ioctl_ifreq _ _ _ _) _ _ _ => apply wp_sys_ioctl_ifreq; intros ? ? ?
  | |- wp (sys_ioctl_int _ _ _ _) _ _ _ => apply wp_sys_ioctl_int; intros ?
  | |- wp (sys_getifaddrs _) _ _ _ => apply wp_sys_getifaddrs; intros ? ?
  | |- wp (sys_write _ _ _) _ _ _ => apply wp_sys_write; intros ?
  | |- wp (stack_array _ _ _) _ _ _ => apply wp_stack_array; intros ? ?
  | |- wp (sys_close _) _ _ _ => apply wp_sys_close
  | |- wp sys_freeifaddrs _ _ _ => apply wp_sys_freeifaddrs
  | |- wp (if ?b then _ else _) _ _ _ => destruct b eqn:?
  | |- wp (match ?x with _ => _ end) _ _ _ => destruct x eqn:?
  end.

(** ** tun_make_netmask *)

(** The three writes of tun_make_netmask, on the address bytes alone. *)
Lemma netmask_region (len : nat) (p : Z) :
  0 <= p <= 8 * Z.of_nat len ->
  let q := Z.to_nat (Z.shiftr p 3) in
  let r := Z.land p 7 in
  let m1 := replicate len 0 in
  let m2 := if 0 <? Z.shiftr p 3 then take 0 m1 ++ replicate q 255 ++ drop (0 + length (replicate q 255)) m1 else m1 in
  let m3 := if 0 <? r then take q m2 ++ [Z.land (Z.shiftr 65280 r) 255] ++ drop (q + 1) m2 else m2 in
  m3 = netmask_spec len p /\ (q <= len)%nat /\ (0 < r -> (q < len)%nat).
Proof.
  intros Hp q r m1 m2 m3.
  assert (Hq : Z.shiftr p 3 = p / 8) by (by rewrite Z.shiftr_div_pow2).
  assert (Hr : r = p mod 8).
  { unfold r. change 7 with (Z.ones 3). by rewrite Z.land_ones. }
  assert (Hql : (q <= len)%nat).
  { unfold q. rewrite Hq. Z.div_mod_to_equations. lia. }
  assert (Hrl : 0 < r -> (q < len)%nat).
  { intros Hr0. unfold q. rewrite Hq. rewrite Hr in Hr0.
    Z.div_mod_to_equations. lia. }
  assert (Hm2 : m2 = replicate q 255 ++ replicate (len - q) 0).
  { unfold m2, m1. rewrite length_replicate. destruct (0 <? Z.shiftr p 3) eqn:E.
    - simpl. by rewrite drop_replicate.
    - apply Z.ltb_ge in E. replace q with 0%nat by (unfold q; lia).
      simpl. by rewrite Nat.sub_0_r. }
  split; [|done].
  unfold m3, netmask_spec. rewrite Hm2, <- Hr. fold q. rewrite <- Hq. fold q.
  assert (0 <= r < 8) by (rewrite Hr; apply Z.mod_pos_bound; lia).
  destruct (0 <? r) eqn:E.
  - apply Z.ltb_lt in E. rewrite (proj2 (Z.eqb_neq r 0)) by lia.
    specialize (Hrl E).
    rewrite take_app_length' by (by rewrite length_replicate).
    rewrite drop_app_add' by (by rewrite length_replicate).
    by rewrite drop_replicate.
  - apply Z.ltb_ge in E. rewrite (proj2 (Z.eqb_eq r 0)) by lia.
    simpl. by rewrite Nat.sub_0_r.
Qed.

Lemma set_sa_family_before pf e af (sa : list Z) :
  (2 <= length sa)%nat ->
  exists sa', set_sa_family pf e af sa = Some sa' /\
              forall off n, (2 <= off)%nat -> read_at off n sa' = read_at off n sa /\ length sa' = length sa.
Proof.
  intros Hl. unfold set_sa_family.
  destruct pf; (eexists; split; [apply write_at_Some; rewrite encode_length; lia|]);
    intros off n Hoff; eapply write_before_region;
    try (apply write_at_Some; rewrite encode_length; lia);
    rewrite encode_length; lia.
Qed.

Lemma set_sa_len_before len (sa : list Z) :
  (1 <= length sa)%nat ->
  exists sa', set_sa_len len sa = Some sa' /\
              forall off n, (1 <= off)%nat -> read_at off n sa' = read_at off n sa /\ length sa' = length sa.
Proof.
  intros Hl. unfold set_sa_len.
  eexists; split; [apply write_at_Some; rewrite encode_length; lia|].
  intros off n Hoff; eapply write_before_region;
    try (apply write_at_Some; rewrite encode_length; lia);
    rewrite encode_length; lia.
Qed.

Lemma tun_make_netmask_general pf e F mask p w :
  (family_addr_off F + family_addr_len F <= length mask)%nat ->
  1 <= p <= family_max F ->
  exists mask',
    tun_make_netmask pf e mask (family_af pf F) p w = Ret (0, mask') w /\
    read_at (family_addr_off F) (family_addr_len F) mask' =
      Some (netmask_spec (family_addr_len F) p) /\
    length mask' = length mask.
Proof.
  intros Hlen Hp. unfold tun_make_netmask.
  rewrite bind_run. unfold assert at 1. rewrite (proj2 (Z.ltb_lt 0 p)) by lia.
  cbv beta iota.
  assert (Hsw : (if family_af pf F =? AF_INET
       then mret (32, Z.of_nat sizeof_sockaddr_in, offsetof_sin_addr)
       else if family_af pf F =? AF_INET6 pf
       then mret (128, Z.of_nat sizeof_sockaddr_in6, offsetof_sin6_addr)
       else errx EXIT_FAILURE "unsupported address family %d." [ArgInt (family_af pf F)]) w
      = Ret (family_max F, Z.of_nat (family_sockaddr_size F), family_addr_off F) w).
  { destruct F, pf; reflexivity. }
  rewrite bind_run, Hsw. cbv beta iota.
  rewrite bind_run, (proj2 (Z.ltb_ge (family_max F) p)) by lia.
  unfold mret at 1, M_ret at 1. cbv beta iota.
  assert (HF : (2 <= family_addr_off F)%nat /\
               Z.to_nat (family_max F / 8) = family_addr_len F /\
               family_max F = 8 * Z.of_nat (family_addr_len F))
    by (destruct F; repeat split; vm_compute; lia).
  destruct HF as (Hoff & Hmax8 & Hmax).
  destruct (set_sa_family_before pf e (family_af pf F) mask) as (m1 & -> & H1); [lia|].
  rewrite bind_run, lift_Some_run.
  assert (Hm2 : exists m2,
    (match pf with
     | Linux => mret m1
     | BSD => lift (set_sa_len (Z.of_nat (family_sockaddr_size F)) m1)
     end) w = Ret m2 w /\
    forall off n, (2 <= off)%nat ->
      read_at off n m2 = read_at off n mask /\ length m2 = length mask).
  { destruct pf; [by exists m1|].
    destruct (set_sa_len_before (Z.of_nat (family_sockaddr_size F)) m1)
      as (m2 & -> & H2); [destruct (H1 2%nat 0%nat); lia|].
    exists m2. split; [done|]. intros off n Ho.
    destruct (H1 off n Ho) as [<- <-]. apply H2. lia. }
  destruct Hm2 as (m2 & Hrun2 & H2). rewrite bind_run, Hrun2. clear Hrun2.
  destruct (H2 (family_addr_off F) (family_addr_len F) Hoff) as [Hr2 Hl2].
  rewrite (read_at_Some _ _ mask) in Hr2 by lia.
  (* memset(p, 0, max / 8) *)
  rewrite Hmax8.
  destruct (write_region _ _ 0 (replicate (family_addr_len F) 0) _ _ Hr2)
    as (m3 & Hw3 & Hr3 & Hl3); [rewrite length_replicate; lia|].
  rewrite Nat.add_0_r in Hw3. rewrite bind_run, Hw3, lift_Some_run.
  rewrite length_replicate, take_0, app_nil_l, Nat.add_0_l in Hr3.
  rewrite drop_ge, app_nil_r in Hr3 by (rewrite length_take, length_drop; lia).
  (* the writes of 0xff and of the partial byte *)
  destruct (netmask_region (family_addr_len F) p) as (Hspec & Hq & Hr); [lia|].
  cbv zeta in Hspec, Hq, Hr. rewrite <- Hspec. clear Hspec.
  rewrite bind_run.
  assert (Hm4 : exists m4,
    (if 0 <? Z.shiftr p 3
     then lift (write_at (family_addr_off F) (replicate (Z.to_nat (Z.shiftr p 3)) 255) m3)
     else mret m3) w = Ret m4 w /\
    read_at (family_addr_off F) (family_addr_len F) m4 =
      Some (if 0 <? Z.shiftr p 3
            then take 0 (replicate (family_addr_len F) 0) ++
                 replicate (Z.to_nat (Z.shiftr p 3)) 255 ++
                 drop (0 + length (replicate (Z.to_nat (Z.shiftr p 3)) 255))
                      (replicate (family_addr_len F) 0)
            else replicate (family_addr_len F) 0) /\
    length m4 = length mask).
  { destruct (0 <? Z.shiftr p 3).
    - destruct (write_region _ _ 0 (replicate (Z.to_nat (Z.shiftr p 3)) 255) _ _ Hr3)
        as (m4 & Hw4 & Hr4 & Hl4); [rewrite length_replicate; lia|].
      rewrite Nat.add_0_r in Hw4. exists m4. rewrite Hw4.
      split; [done|]. split; [done|lia].
    - exists m3. split; [done|]. split; [done|lia]. }
  destruct Hm4 as (m4 & -> & Hr4 & Hl4).
  rewrite bind_run.
  destruct (0 <? Z.land p 7) eqn:Er.
  - apply Z.ltb_lt in Er. specialize (Hr Er).
    destruct (write_region _ _ (Z.to_nat (Z.shiftr p 3))
                [Z.land (Z.shiftr 65280 (Z.land p 7)) 255] _ _ Hr4)
      as (m5 & Hw5 & Hr5 & Hl5); [simpl; lia|].
    rewrite Hw5, lift_Some_run. exists m5.
    split; [done|]. split; [exact Hr5|lia].
  - rewrite mret_run. exists m4. split; [done|]. split; [exact Hr4|lia].
Qed.

(** tun_make_netmask returns in the world it was called in, and otherwise
    only adds a diagnostic. *)
Lemma wp_tun_make_netmask pf e mask af p (Q : Z * list Z -> world -> Prop) E w :
  (forall r mask', Q (r, mask') w) -> E w -> diag_stable E ->
  wp (tun_make_netmask pf e mask af p) Q E w.
Proof.
  intros HQ HE HS. unfold tun_make_netmask.
  repeat wp_step; auto; by apply HS.
Qed.

(** Claim C1, as the code has it.  On both platforms and for both byte
    orders, for each family F and every prefix length p with
    1 <= p <= max(F), tun_make_netmask returns 0 and the address bytes of
    the mask are p/8 bytes 0xFF, then, when p mod 8 is not zero, the byte
    (0xFF00 >> (p mod 8)) & 0xFF, then zeros.  At p = max(F) they are all
    0xFF; mask(IPv4, 24) is FF FF FF 00 and mask(IPv6, 64) is eight 0xFF
    followed by eight 0x00.  At p = 0 the assertion prefix_len > 0
    fails: the function does not return and no mask is produced. *)
Theorem tun_make_netmask_bytes pf e F mask w :
  (sizeof_sockaddr_in6 <= length mask)%nat ->
  (forall p, 1 <= p <= family_max F ->
     exists mask',
       tun_make_netmask pf e mask (family_af pf F) p w = Ret (0, mask') w /\
       read_at (family_addr_off F) (family_addr_len F) mask' =
         Some (netmask_spec (family_addr_len F) p)) /\
  (exists mask',
     tun_make_netmask pf e mask (family_af pf F) (family_max F) w = Ret (0, mask') w /\
     read_at (family_addr_off F) (family_addr_len F) mask' =
       Some (replicate (family_addr_len F) 255)) /\
  (exists mask',
     tun_make_netmask pf e mask AF_INET 24 w = Ret (0, mask') w /\
     read_at offsetof_sin_addr sizeof_in_addr mask' = Some [255; 255; 255; 0]) /\
  (exists mask',
     tun_make_netmask pf e mask (AF_INET6 pf) 64 w = Ret (0, mask') w /\
     read_at offsetof_sin6_addr sizeof_in6_addr mask' =
       Some (replicate 8 255 ++ replicate 8 0)) /\
  tun_make_netmask pf e mask (family_af pf F) 0 w = Abort w.
Proof.
  intros Hlen.
  assert (HF : forall F', (family_addr_off F' + family_addr_len F' <= length mask)%nat).
  { intros []; unfold sizeof_sockaddr_in6 in Hlen;
      unfold family_addr_off, family_addr_len, offsetof_sin_addr,
        offsetof_sin6_addr, sizeof_in_addr, sizeof_in6_addr; lia. }
  split; [|split; [|split; [|split]]].
  - intros p Hp.
    destruct (tun_make_netmask_general pf e F mask p w (HF F) Hp) as (m & ? & ? & _).
    eauto.
  - destruct (tun_make_netmask_general pf e F mask (family_max F) w (HF F))
      as (m & ? & Hr & _); [destruct F; simpl; lia|].
    exists m. split; [done|]. rewrite Hr. by destruct F.
  - destruct (tun_make_netmask_general pf e IPv4 mask 24 w (HF IPv4))
      as (m & ? & Hr & _); [simpl; lia|]. eauto.
  - destruct (tun_make_netmask_general pf e IPv6 mask 64 w (HF IPv6))
      as (m & ? & Hr & _); [simpl; lia|]. eauto.
  - reflexivity.
Qed.

Lemma tun_make_netmask_bytes_witness :
  exists mask',
    tun_make_netmask BSD LittleEndian (replicate 28 7) AF_INET 20 (initial_world ∅)
      = Ret (0, mask') (initial_world ∅) /\
    read_at offsetof_sin_addr sizeof_in_addr mask' = Some [255; 255; 240; 0].
Proof.
  apply (proj1 (tun_make_netmask_bytes BSD LittleEndian IPv4 (replicate 28 7)
                  (initial_world ∅)
                  ltac:(unfold sizeof_sockaddr_in6; rewrite length_replicate; lia)) 20).
  unfold family_max. lia.
Defined.

(** Claim C1 fails at prefix length 0: the assertion at the head of
    tun_make_netmask stops the process. *)
Lemma tun_make_netmask_zero_prefix_aborts :
  tun_make_netmask BSD LittleEndian (replicate 28 0) AF_INET 0 (initial_world ∅)
    = Abort (initial_world ∅).
Proof. reflexivity. Qed.

(** ** The framing codec: tun_get_af and tun_set_af *)

(** What tun_set_af does to a header of at least four bytes, Linux. *)
Lemma tun_set_af_linux_store e buf a w ether_type :
  load buf w = Some a -> (4 <= length a)%nat ->
  exists a' w',
    (write_bytes buf offsetof_pi_flags (encode e 2 0) ;;
     write_bytes buf offsetof_pi_proto (encode e 2 (htons e ether_type)) ;;
     mret 0) w = Ret 0 w' /\
    load buf w' = Some a' /\ length a' = length a /\
    read_at offsetof_pi_proto 2 a' = Some (encode e 2 (htons e ether_type)) /\
    trace w' = trace w.
Proof.
  intros Hl Hlen.
  destruct (write_bytes_run buf offsetof_pi_flags (encode e 2 0) a w Hl)
    as (a1 & w1 & Hr1 & Ha1 & Hs1).
  { rewrite encode_length. unfold offsetof_pi_flags. lia. }
  pose proof (load_store _ _ _ _ Hs1) as Hl1.
  pose proof (write_at_length _ _ _ _ Ha1) as Hlen1.
  destruct (write_bytes_run buf offsetof_pi_proto
              (encode e 2 (htons e ether_type)) a1 w1 Hl1)
    as (a2 & w2 & Hr2 & Ha2 & Hs2).
  { rewrite encode_length. unfold offsetof_pi_proto. lia. }
  exists a2, w2. rewrite bind_run, Hr1. cbv beta iota. rewrite bind_run, Hr2.
  split; [done|]. split; [by eapply load_store|].
  split; [rewrite (write_at_length _ _ _ _ Ha2); lia|].
  split.
  - rewrite <- (encode_length e 2 (htons e ether_type)) at 1.
    by eapply read_write_at.
  - destruct (store_trace _ _ _ _ Hs1), (store_trace _ _ _ _ Hs2). congruence.
Qed.

(** Claim C2.  For a tag T that is AF_INET or AF_INET6 and a buffer of at
    least four bytes, tun_set_af returns 0 and tun_get_af on the buffer it
    leaves returns T, on Linux (Ether type in struct tun_pi) and on BSD
    (32-bit family in network byte order), whatever the byte order of the
    host. *)
Theorem tun_get_af_tun_set_af pf e buf a T w :
  load buf w = Some a -> (4 <= length a)%nat ->
  T = AF_INET \/ T = AF_INET6 pf ->
  exists w', tun_set_af pf e buf T w = Ret 0 w' /\
             tun_get_af pf e buf w' = Ret T w'.
Proof.
  intros Hl Hlen HT. destruct pf.
  - assert (exists et, tun_set_af Linux e buf T =
                         (write_bytes buf offsetof_pi_flags (encode e 2 0) ;;
                          write_bytes buf offsetof_pi_proto (encode e 2 (htons e et)) ;;
                          mret 0) /\
                       ((T = AF_INET /\ et = ETH_P_IP) \/
                        (T = AF_INET6 Linux /\ et = ETH_P_IPV6))) as (et & -> & Het).
    { destruct HT as [-> | ->]; [exists ETH_P_IP | exists ETH_P_IPV6]; split; auto. }
    destruct (tun_set_af_linux_store e buf a w et Hl Hlen)
      as (a' & w' & Hrun & Hl' & _ & Hrd & _).
    exists w'. split; [done|].
    unfold tun_get_af. rewrite bind_run, (read_bytes_run _ _ _ _ _ Hl'), Hrd.
    simpl lift. unfold mret, M_ret. cbv beta iota. rewrite ntohs_stored.
    destruct Het as [[-> ->] | [-> ->]]; reflexivity.
  - destruct (write_bytes_run buf 0 (encode e 4 (htonl e T)) a w Hl)
      as (a' & w' & Hrun & Ha' & Hs').
    { rewrite encode_length. lia. }
    exists w'. unfold tun_set_af, tun_get_af. rewrite !bind_run, Hrun.
    split; [done|].
    rewrite (read_bytes_run _ _ _ _ _ (load_store _ _ _ _ Hs')).
    rewrite <- (encode_length e 4 (htonl e T)) at 1.
    rewrite (read_write_at _ _ _ _ Ha'). simpl lift. unfold mret, M_ret. cbv beta iota.
    rewrite ntohl_stored. destruct HT as [-> | ->]; reflexivity.
Qed.

Lemma tun_get_af_tun_set_af_witness :
  exists w', tun_set_af Linux LittleEndian (Buf 3) (AF_INET6 Linux) example_world
               = Ret 0 w' /\
             tun_get_af Linux LittleEndian (Buf 3) w' = Ret (AF_INET6 Linux) w'.
Proof.
  apply (tun_get_af_tun_set_af Linux LittleEndian (Buf 3) [0; 0; 0; 0]).
  - reflexivity.
  - simpl. lia.
  - right. reflexivity.
Defined.

(** The default case of the switch in tun_set_af. *)
Lemma tun_set_af_linux_default e buf af w :
  af <> AF_INET -> af <> AF_INET6 Linux ->
  tun_set_af Linux e buf af w =
    Ret (-1) (add_event (Ediag Fwarnx "unsupported address family %d" [ArgInt af]) w).
Proof.
  intros H4 H6. unfold tun_set_af.
  by rewrite (proj2 (Z.eqb_neq af AF_INET)), (proj2 (Z.eqb_neq af (AF_INET6 Linux))).
Qed.

(** Claim C3, as the code has it.  For a tag that is neither AF_INET nor
    AF_INET6: on Linux tun_set_af returns -1 after the warning
    "unsupported address family"; on BSD there is no check, and for a
    buffer of at least four bytes tun_set_af returns 0 and stores the tag
    in the first four bytes, most significant byte first. *)
Theorem tun_set_af_other_tag pf e buf af w :
  af <> AF_INET -> af <> AF_INET6 pf ->
  match pf with
  | Linux =>
      tun_set_af Linux e buf af w =
        Ret (-1) (add_event (Ediag Fwarnx "unsupported address family %d" [ArgInt af]) w)
  | BSD =>
      forall a, load buf w = Some a -> (4 <= length a)%nat ->
        exists w', tun_set_af BSD e buf af w = Ret 0 w' /\
                   load buf w' = Some (rev (le_bytes 4 af) ++ drop 4 a) /\
                   trace w' = trace w
  end.
Proof.
  intros H4 H6. destruct pf.
  - by apply tun_set_af_linux_default.
  - intros a Hl Hlen.
    destruct (write_bytes_run buf 0 (encode e 4 (htonl e af)) a w Hl)
      as (a' & w' & Hrun & Ha' & Hs'); [rewrite encode_length; lia|].
    exists w'. unfold tun_set_af. rewrite bind_run, Hrun. split; [done|].
    rewrite (load_store _ _ _ _ Hs'). split; [|by destruct (store_trace _ _ _ _ Hs')].
    rewrite write_at_Some in Ha' by (rewrite encode_length; lia).
    injection Ha' as <-. by rewrite encode_length, encode_htonl.
Qed.

Lemma tun_set_af_other_tag_witness :
  tun_set_af Linux LittleEndian (Buf 3) 7 example_world =
    Ret (-1) (add_event (Ediag Fwarnx "unsupported address family %d" [ArgInt 7])
                example_world) /\
  exists w', tun_set_af BSD LittleEndian (Buf 3) 7 example_world = Ret 0 w' /\
             load (Buf 3) w' = Some (rev (le_bytes 4 7) ++ drop 4 [0; 0; 0; 0]) /\
             trace w' = trace example_world.
Proof.
  split.
  - apply (tun_set_af_other_tag Linux LittleEndian (Buf 3) 7);
      unfold AF_INET, AF_INET6; lia.
  - apply (tun_set_af_other_tag BSD LittleEndian (Buf 3) 7 example_world
             ltac:(unfold AF_INET; lia) ltac:(unfold AF_INET6; lia) [0; 0; 0; 0]).
    + reflexivity.
    + simpl. lia.
Defined.

(** Claim C3 fails on BSD: the tag 7 is accepted and written. *)
Lemma tun_set_af_bsd_accepts_other_tag :
  7 <> AF_INET /\ 7 <> AF_INET6 BSD /\
  exists w', tun_set_af BSD LittleEndian (Buf 0) 7
               (initial_world {[ 0%nat := [0; 0; 0; 0] ]}) = Ret 0 w' /\
             load (Buf 0) w' = Some [0; 0; 0; 7].
Proof.
  split; [done|]. split; [done|]. eexists. split; [vm_compute; reflexivity|].
  vm_compute. reflexivity.
Qed.

(** Claim C4, as the code has it.  For a buffer of at least four bytes: on
    Linux, when the Ether type of the header is neither ETH_P_IP nor
    ETH_P_IPV6, tun_get_af returns 255 after one warning and the process
    goes on; on BSD tun_get_af returns the 32-bit value of the first four
    bytes as it is, with no sentinel and no diagnostic. *)
Theorem tun_get_af_other_family pf e buf a w :
  load buf w = Some a -> (4 <= length a)%nat -> Forall byte_ok a ->
  match pf with
  | Linux =>
      let ether_type := be_value (take 2 (drop offsetof_pi_proto a)) in
      ether_type <> ETH_P_IP -> ether_type <> ETH_P_IPV6 ->
      tun_get_af Linux e buf w =
        Ret 255 (add_event (Ediag Fwarnx "unknown ether frame type %x received."
                                  [ArgInt ether_type]) w)
  | BSD => tun_get_af BSD e buf w = Ret (be_value (take 4 a)) w
  end.
Proof.
  intros Hl Hlen Hb. destruct pf.
  - intros et H4 H6. unfold tun_get_af.
    rewrite bind_run, (read_bytes_run _ _ _ _ _ Hl).
    rewrite read_at_Some by (unfold offsetof_pi_proto; lia).
    rewrite lift_Some_run. cbv beta iota zeta.
    rewrite ntohs_decode.
    + fold et. by rewrite (proj2 (Z.eqb_neq et ETH_P_IP)), (proj2 (Z.eqb_neq et ETH_P_IPV6)).
    + rewrite length_take, length_drop. unfold offsetof_pi_proto. lia.
    + by apply Forall_take, Forall_drop.
  - unfold tun_get_af.
    rewrite bind_run, (read_bytes_run _ _ _ _ _ Hl).
    rewrite read_at_Some by lia. rewrite lift_Some_run. cbv beta iota.
    rewrite drop_0, ntohl_decode; [done| |by apply Forall_take].
    rewrite length_take. lia.
Qed.

Lemma tun_get_af_other_family_witness :
  tun_get_af Linux LittleEndian (Buf 0)
             (initial_world {[ 0%nat := [0; 0; 8; 6; 0; 1] ]}) =
    Ret 255 (add_event (Ediag Fwarnx "unknown ether frame type %x received."
                              [ArgInt 2054])
               (initial_world {[ 0%nat := [0; 0; 8; 6; 0; 1] ]})) /\
  tun_get_af BSD BigEndian (Buf 0)
             (initial_world {[ 0%nat := [0; 0; 0; 18; 69; 0] ]}) =
    Ret 18 (initial_world {[ 0%nat := [0; 0; 0; 18; 69; 0] ]}).
Proof.
  split.
  - apply (tun_get_af_other_family Linux LittleEndian (Buf 0) [0; 0; 8; 6; 0; 1]).
    + reflexivity.
    + simpl. lia.
    + repeat constructor; unfold byte_ok; lia.
    + vm_compute. discriminate.
    + vm_compute. discriminate.
  - apply (tun_get_af_other_family BSD BigEndian (Buf 0) [0; 0; 0; 18; 69; 0]).
    + reflexivity.
    + simpl. lia.
    + repeat constructor; unfold byte_ok; lia.
Defined.

(** Claim C4 fails on BSD: a header holding the family 7 decodes to 7, not
    to the sentinel 255. *)
Lemma tun_get_af_bsd_returns_raw_family :
  tun_get_af BSD LittleEndian (Buf 0) (initial_world {[ 0%nat := [0; 0; 0; 7] ]}) =
    Ret 7 (initial_world {[ 0%nat := [0; 0; 0; 7] ]}) /\
  7 <> AF_INET /\ 7 <> AF_INET6 BSD /\ 7 <> 255.
Proof. split; [vm_compute; reflexivity|done]. Qed.

(** Claim C10.  On Linux, tun_set_af called with a tag that is neither
    AF_INET nor AF_INET6 returns -1 and leaves every byte of memory, the
    buffer included, as it was. *)
Theorem tun_set_af_linux_failure_leaves_memory e buf af w :
  af <> AF_INET -> af <> AF_INET6 Linux ->
  exists w', tun_set_af Linux e buf af w = Ret (-1) w' /\
             bufs w' = bufs w /\ tun_if_name w' = tun_if_name w /\
             forall p, load p w' = load p w.
Proof.
  intros H4 H6. eexists. split.
  - by apply tun_set_af_linux_default.
  - split; [done|]. split; [done|]. intros p. apply load_add_event.
Qed.

Lemma tun_set_af_linux_failure_leaves_memory_witness :
  exists w', tun_set_af Linux BigEndian (Buf 3) 7 example_world = Ret (-1) w' /\
             bufs w' = bufs example_world /\
             tun_if_name w' = tun_if_name example_world /\
             forall p, load p w' = load p example_world.
Proof.
  apply (tun_set_af_linux_failure_leaves_memory BigEndian (Buf 3) 7 example_world);
    unfold AF_INET, AF_INET6; lia.
Defined.

(** ** tun_alloc *)

(** Claim C8, as the code has it.  After every successful tun_alloc(name)
    the first IFNAMSIZ bytes of the buffer passed as [name] hold the name
    the kernel returned from the create request, as strncpy copies it.  The
    exported array tun_if_name holds it when that array is the argument;
    with any other argument the exported array is left as it was. *)
Theorem tun_alloc_name pf h name w fd w' :
  tun_alloc pf h name w = Ret fd w' ->
  exists t fd0 arg r res n,
    trace w' = trace w ++ t /\
    Eioctl_ifreq fd0 (create_request pf) arg r res ∈ t /\ r <> -1 /\
    strncpy (ifr_name res) IFNAMSIZ = Some n /\
    (exists a, load name w' = Some a /\ take IFNAMSIZ a = n) /\
    (name <> Global_tun_if_name -> tun_if_name w' = tun_if_name w).
Proof.
  intros Hrun.
  refine (wp_run (tun_alloc pf h name)
            (fun _ w' => exists t fd0 arg r res n,
               trace w' = trace w ++ t /\
               Eioctl_ifreq fd0 (create_request pf) arg r res ∈ t /\ r <> -1 /\
               strncpy (ifr_name res) IFNAMSIZ = Some n /\
               (exists a, load name w' = Some a /\ take IFNAMSIZ a = n) /\
               (name <> Global_tun_if_name -> tun_if_name w' = tun_if_name w))
            (fun _ => True) w fd w' _ Hrun).
  clear Hrun fd w'.
  unfold tun_alloc.
  destruct pf; repeat wp_step; try exact I.
  all: match goal with
       | Hs : store _ ?a' (add_event (Eioctl_ifreq ?fd ?req ?arg ?r ?res) ?wk) = Some ?w1,
         Hw : write_at 0 ?n _ = Some ?a',
         Hn : strncpy (ifr_name ?res) IFNAMSIZ = Some ?n,
         Hr : (?r =? -1) = false |- _ =>
           destruct (store_trace _ _ _ _ Hs) as [Htr _];
           pose proof (store_other _ _ _ _ Hs) as Hg;
           pose proof (load_store _ _ _ _ Hs) as Hl;
           pose proof (write_at_take _ _ _ Hw) as Ht;
           rewrite (strncpy_length _ _ _ Hn) in Ht;
           eexists; exists fd, arg, r, res, n
       end.
  all: repeat split.
  all: try (cbn [trace add_event]; rewrite Htr; cbn [trace add_event];
            rewrite <- !app_assoc; reflexivity).
  all: try (by apply Z.eqb_neq).
  all: try assumption.
  all: try (rewrite !elem_of_app, !list_elem_of_singleton; tauto).
  all: try (eexists; split; [rewrite !load_add_event; exact Hl | exact Ht]).
  all: try (intros Hne; cbn [tun_if_name add_event]; by rewrite (Hg Hne)).
Qed.

Lemma tun_alloc_name_witness :
  exists t fd0 arg r res n,
    trace (world_of (tun_alloc BSD host_with_tun Global_tun_if_name example_world))
      = trace example_world ++ t /\
    Eioctl_ifreq fd0 (create_request BSD) arg r res ∈ t /\ r <> -1 /\
    strncpy (ifr_name res) IFNAMSIZ = Some n /\
    (exists a,
       load Global_tun_if_name
            (world_of (tun_alloc BSD host_with_tun Global_tun_if_name example_world))
         = Some a /\ take IFNAMSIZ a = n) /\
    (Global_tun_if_name <> Global_tun_if_name ->
     tun_if_name (world_of (tun_alloc BSD host_with_tun Global_tun_if_name example_world))
       = tun_if_name example_world).
Proof.
  apply (tun_alloc_name BSD host_with_tun Global_tun_if_name example_world 4).
  vm_compute. reflexivity.
Defined.

(** Claim C8 fails when the caller passes a buffer of its own: the kernel
    names the interface tun0, the caller's buffer receives the name and the
    exported tun_if_name still holds its initial zeros. *)
Lemma tun_alloc_global_name_untouched :
  exists w',
    tun_alloc BSD host_with_tun (Buf 0) example_world = Ret 4 w' /\
    Eioctl_ifreq 3 SIOCIFCREATE2
      (Ifreq (bytes_of_string "tun" ++ replicate 13 0) 0) 0
      (Ifreq (bytes_of_string "tun0" ++ replicate 12 0) 0) ∈ trace w' /\
    tun_if_name w' = replicate IFNAMSIZ 0 /\
    bufs w' !! 0%nat = Some (bytes_of_string "tun0" ++ replicate 12 0).
Proof.
  eexists. split; [vm_compute; reflexivity|].
  split; [apply list_elem_of_further, list_elem_of_here|].
  split; vm_compute; reflexivity.
Qed.

(** Claim C7 against the code.  tun_dev_name is not initialised before the
    two strcat calls: when the array happens to hold the string "x", the
    kernel having named the interface tun0, the only path opened is
    "x/dev/tun0" and not "/dev/tun0". *)
Theorem tun_alloc_bsd_device_path :
  exists w',
    tun_alloc BSD (example_host (bytes_of_string "x") []) (Buf 0) example_world
      = Ret 4 w' /\
    opened_paths (trace w') = [bytes_of_string "x/dev/tun0"] /\
    bufs w' !! 0%nat = Some (bytes_of_string "tun0" ++ replicate 12 0).
Proof.
  eexists. split; [vm_compute; reflexivity|]. split; vm_compute; reflexivity.
Qed.

(** ** tun_route_add *)

Lemma init_sockaddr_Some e size af (so : list Z) :
  (2 <= size <= length so)%nat ->
  exists so', init_sockaddr e size af so = Some so' /\ length so' = length so.
Proof.
  intros Hs. unfold init_sockaddr.
  destruct (write_at_is_Some 0 (replicate size 0) so) as [so1 H1];
    [rewrite length_replicate; lia|].
  pose proof (write_at_length _ _ _ _ H1) as L1.
  destruct (set_sa_len_before (Z.of_nat size) so1) as (so2 & H2 & L2); [lia|].
  destruct (L2 1%nat 0%nat ltac:(lia)) as [_ L2'].
  destruct (set_sa_family_before BSD e af so2) as (so3 & H3 & L3); [lia|].
  destruct (L3 2%nat 0%nat ltac:(lia)) as [_ L3'].
  exists so3. rewrite H1. cbn [mbind option_bind]. rewrite H2.
  cbn [mbind option_bind]. rewrite H3.
  split; [done|lia].
Qed.





(** When no AF_LINK entry is named like [tun_if_name], the memcpy reads
    through the null [sdlp]; the check that follows it is not reached. *)
Lemma tun_route_add_install_null_sdlp h rtm_addrs rtm_flags so_dst so_gate so_mask w :
  fst (h_getifaddrs h (trace w)) = 0 ->
  find_sdl (tun_if_name w) (snd (h_getifaddrs h (trace w))) None = Some None ->
  tun_route_add_install h rtm_addrs rtm_flags so_dst so_gate so_mask w = Undef.
Proof.
  intros Hr Hf.
  assert (Hg : sys_getifaddrs h w =
               Ret (0, snd (h_getifaddrs h (trace w))) (add_event (Egetifaddrs 0) w)).
  { unfold sys_getifaddrs, get_trace. rewrite bind_run. cbv beta iota.
    destruct (h_getifaddrs h (trace w)) as [r ifap]. simpl in Hr. by subst r. }
  unfold tun_route_add_install. rewrite bind_run, Hg. cbv beta iota.
  rewrite bind_run. change (negb (0 =? 0)) with false. cbv beta iota.
  rewrite mret_run, bind_run. unfold read_tun_if_name. cbv beta iota.
  change (tun_if_name (add_event (Egetifaddrs 0) w)) with (tun_if_name w).
  by rewrite bind_run, Hf, lift_Some_run, bind_run.
Qed.

(** Claim C5 against the code.  The list of getifaddrs holds no AF_LINK
    entry named tun0: tun_route_add reads through the null sdlp in memcpy
    before it tests it, so the behaviour is undefined and the report
    "cannot find a link-layer address" is never made. *)
Theorem tun_route_add_missing_link_address :
  find_sdl (bytes_of_string "tun0" ++ replicate 12 0)
           (snd (h_getifaddrs host_without_tun [])) None = Some None /\
  (tun_alloc BSD host_without_tun Global_tun_if_name ;;
   tun_route_add LittleEndian host_without_tun BSD AF_INET (Buf 1) 24)
    example_world = Undef.
Proof. split; vm_compute; reflexivity. Qed.

(** The sequence counter: [seq] counts the messages written, and is one
    ahead between [++seq] and the write. *)
Lemma written_seqs_app t ev :
  written_seqs (t ++ [ev]) =
  written_seqs t ++ match ev with Ewrite _ msg _ => [rtm_seq msg] | _ => [] end.
Proof.
  induction t as [|ev' t IH]; simpl.
  - by destruct ev.
  - destruct ev'; simpl; by rewrite IH.
Qed.

Lemma seq_inv_add_event d ev w :
  is_write ev = false -> seq_inv d w -> seq_inv d (add_event ev w).
Proof.
  unfold seq_inv, add_event. simpl. rewrite written_seqs_app.
  destruct ev; try done; by rewrite app_nil_r.
Qed.

Lemma seq_inv_incr w :
  seq_inv 0 w -> seq_inv 1 (World (trace w) (tun_if_name w) (seq w + 1) (bufs w)).
Proof. unfold seq_inv. simpl. intros [? ?]. split; [done|lia]. Qed.

Lemma seq_inv_write fd msg r w :
  rtm_seq msg = seq w -> seq_inv 1 w -> seq_inv 0 (add_event (Ewrite fd msg r) w).
Proof.
  unfold seq_inv, add_event. simpl. rewrite written_seqs_app.
  intros Hs [Hn Hl]. split.
  - intros i s Hi. destruct (decide (i < length (written_seqs (trace w)))%nat).
    + rewrite lookup_app_l in Hi by done. by apply Hn.
    + rewrite lookup_app_r in Hi by lia.
      destruct (i - length (written_seqs (trace w)))%nat eqn:Hd; [|done].
      simpl in Hi. injection Hi as <-. lia.
  - rewrite length_app. simpl. lia.
Qed.

Lemma seq_ok_add_event ev w : is_write ev = false -> seq_ok w -> seq_ok (add_event ev w).
Proof. intros H [?|?]; [left|right]; by apply seq_inv_add_event. Qed.

Lemma seq_ok_diag_stable : diag_stable seq_ok.
Proof. intros fn fmt args w. by apply seq_ok_add_event. Qed.

Lemma wp_NEXTADDR h rtm_addrs b u cp (Q : list Z -> world -> Prop) E w :
  (forall cp', Q cp' w) -> wp (NEXTADDR h rtm_addrs b u cp) Q E w.
Proof. intros HQ. unfold NEXTADDR. repeat wp_step; auto. Qed.

Ltac solve_seq_inv :=
  repeat first [ assumption
               | apply seq_inv_add_event; [reflexivity|]
               | apply seq_inv_incr
               | apply seq_inv_write; [reflexivity|] ].

Ltac solve_seq :=
  lazymatch goal with
  | |- seq_ok _ => first [ left; solve [solve_seq_inv] | right; solve [solve_seq_inv] ]
  | |- seq_inv _ _ => solve [solve_seq_inv]
  end.

Lemma wp_tun_route_add_install h rtm_addrs rtm_flags so_dst so_gate so_mask w :
  seq_inv 0 w ->
  wp (tun_route_add_install h rtm_addrs rtm_flags so_dst so_gate so_mask)
     (fun _ => seq_inv 0) seq_ok w.
Proof.
  intros HI. unfold tun_route_add_install.
  repeat first [apply wp_NEXTADDR; intros ? | wp_step]; solve_seq.
Qed.

Lemma wp_tun_route_add_family e h af size off len max addr p w :
  seq_inv 0 w ->
  wp (tun_route_add_family e h af size off len max addr p)
     (fun _ => seq_inv 0) seq_ok w.
Proof.
  intros HI. unfold tun_route_add_family.
  repeat first [ apply wp_tun_route_add_install
               | apply wp_tun_make_netmask; [intros ? ?| |apply seq_ok_diag_stable]
               | wp_step ]; solve_seq.
Qed.

Lemma wp_tun_route_add e h pf af addr p w :
  seq_inv 0 w ->
  wp (tun_route_add e h pf af addr p) (fun _ => seq_inv 0) seq_ok w.
Proof.
  intros HI. unfold tun_route_add.
  repeat first [ apply wp_tun_route_add_family | wp_step ]; solve_seq.
Qed.

Lemma wp_route_calls e h pf calls w :
  seq_inv 0 w ->
  wp (route_calls e h pf calls) (fun _ => seq_ok) seq_ok w.
Proof.
  revert w. induction calls as [|[[af addr] p] calls IH]; intros w HI; simpl.
  - apply wp_mret. by left.
  - apply wp_bind. unfold wp at 1.
    pose proof (wp_tun_route_add e h pf af addr p w HI) as H. unfold wp at 1 in H.
    destruct (tun_route_add e h pf af addr p w); auto.
Qed.

Lemma seq_inv_start w :
  written_seqs (trace w) = [] -> seq w = 0 -> seq_inv 0 w.
Proof.
  intros Ht Hs. unfold seq_inv. rewrite Ht, Hs. split; [intros i s [=]|done].
Qed.

Lemma seq_ok_numbered w : seq_ok w -> numbered (written_seqs (trace w)).
Proof. by intros [[? _]|[? _]]. Qed.

(** Claim C9.  From a process state in which [seq] is zero and no routing
    message has been written, after any sequence of tun_route_add calls
    the message of rank i (counting from 0) carries the sequence number
    i + 1; a message therefore carries a number strictly greater than
    that of every earlier one.  ([seq] is an int: the run is undefined once
    it would pass INT_MAX.) *)
Theorem route_seq_numbers e h pf calls w0 w i s :
  written_seqs (trace w0) = [] -> seq w0 = 0 ->
  final_world (route_calls e h pf calls w0) = Some w ->
  written_seqs (trace w) !! i = Some s ->
  s = Z.of_nat i + 1 /\
  forall j t, (i < j)%nat -> written_seqs (trace w) !! j = Some t -> s < t.
Proof.
  intros Ht Hs Hf Hi.
  assert (Hn : numbered (written_seqs (trace w))).
  { apply seq_ok_numbered. revert Hf. apply wp_final.
    by apply wp_route_calls, seq_inv_start. }
  split; [by apply Hn|].
  intros j t Hij Hj. rewrite (Hn _ _ Hi), (Hn _ _ Hj). lia.
Qed.

Lemma route_seq_numbers_witness :
  2 = Z.of_nat 1 + 1 /\
  forall j t, (1 < j)%nat ->
    written_seqs (trace (world_of
      (route_calls LittleEndian host_with_tun BSD
         [(AF_INET, Buf 1, 24); (AF_INET6 BSD, Buf 2, 64); (AF_INET, Buf 1, 32)]
         (world_of (tun_alloc BSD host_with_tun Global_tun_if_name example_world)))))
      !! j = Some t ->
    2 < t.
Proof.
  apply (route_seq_numbers LittleEndian host_with_tun BSD
           [(AF_INET, Buf 1, 24); (AF_INET6 BSD, Buf 2, 64); (AF_INET, Buf 1, 32)]
           (world_of (tun_alloc BSD host_with_tun Global_tun_if_name example_world)));
    vm_compute; reflexivity.
Defined.

(** ** The framing codec, byte by byte *)

Lemma load_store_other p q v w w' :
  store p v w = Some w' -> q <> p -> load q w' = load q w.
Proof.
  destruct p; simpl; intros [= <-] Hq; destruct q; simpl; try done.
  apply lookup_insert_ne. congruence.
Qed.

Lemma write_bytes_spec p off bs a w :
  load p w = Some a -> (off + length bs <= length a)%nat ->
  exists w', write_bytes p off bs w = Ret tt w' /\
             load p w' = Some (take off a ++ bs ++ drop (off + length bs) a) /\
             trace w' = trace w /\ seq w' = seq w /\
             forall q, q <> p -> load q w' = load q w.
Proof.
  intros Hl Hlen.
  destruct (write_bytes_run p off bs a w Hl Hlen) as (a' & w' & Hrun & Ha' & Hs).
  rewrite write_at_Some in Ha' by done. injection Ha' as <-.
  exists w'. split; [done|]. split; [by eapply load_store|].
  destruct (store_trace _ _ _ _ Hs). repeat split; try done.
  intros q Hq. by eapply load_store_other.
Qed.

(** For an IPv4 or IPv6 tag and a buffer of at least four bytes, tun_set_af
    returns 0 and rewrites exactly the four header bytes: on Linux the
    flags become 0 and the protocol the Ether type in network byte order,
    on BSD the four bytes are the family in network byte order.  The
    payload behind the header, every other buffer, the trace and the
    routing sequence number are left as they were, on either byte order
    of the host. *)
Theorem tun_set_af_header pf e F buf a w :
  load buf w = Some a -> (4 <= length a)%nat ->
  exists w',
    tun_set_af pf e buf (family_af pf F) w = Ret 0 w' /\
    load buf w' = Some (wire_header pf F ++ drop 4 a) /\
    trace w' = trace w /\ seq w' = seq w /\
    forall q, q <> buf -> load q w' = load q w.
Proof.
  intros Hl Hlen. destruct pf.
  - assert (exists et, tun_set_af Linux e buf (family_af Linux F) =
                         (write_bytes buf offsetof_pi_flags (encode e 2 0) ;;
                          write_bytes buf offsetof_pi_proto (encode e 2 (htons e et)) ;;
                          mret 0) /\
                       rev (le_bytes 2 et) = drop 2 (wire_header Linux F))
      as (et & -> & Het).
    { destruct F; [exists ETH_P_IP | exists ETH_P_IPV6]; split; reflexivity. }
    destruct (write_bytes_spec buf offsetof_pi_flags (encode e 2 0) a w Hl)
      as (w1 & Hr1 & Hl1 & Ht1 & Hs1 & Ho1);
      [rewrite encode_length; unfold offsetof_pi_flags; lia|].
    rewrite encode_length in Hl1.
    destruct (write_bytes_spec buf offsetof_pi_proto (encode e 2 (htons e et)) _ w1 Hl1)
      as (w2 & Hr2 & Hl2 & Ht2 & Hs2 & Ho2).
    { rewrite encode_length, !length_app, length_take, length_drop, encode_length.
      unfold offsetof_pi_proto, offsetof_pi_flags. lia. }
    exists w2. rewrite bind_run, Hr1. cbv beta iota. rewrite bind_run, Hr2.
    split; [done|]. split.
    + rewrite Hl2, encode_length, encode_htons, Het. unfold offsetof_pi_proto, offsetof_pi_flags.
      assert (He : encode e 2 0 = [0; 0]) by (by destruct e).
      rewrite He, take_0, app_nil_l. change (0 + 2)%nat with 2%nat.
      change (take 2 ([0; 0] ++ drop 2 a)) with [0; 0].
      change (drop (2 + 2) ([0; 0] ++ drop 2 a)) with (drop 2 (drop 2 a)).
      rewrite drop_drop. by destruct F.
    + split; [congruence|]. split; [congruence|].
      intros q Hq. rewrite Ho2, Ho1; done.
  - destruct (write_bytes_spec buf 0 (encode e 4 (htonl e (family_af BSD F))) a w Hl)
      as (w1 & Hr1 & Hl1 & Ht1 & Hs1 & Ho1); [rewrite encode_length; lia|].
    exists w1. unfold tun_set_af. rewrite bind_run, Hr1.
    split; [done|]. split; [|done].
    rewrite Hl1, encode_length, encode_htonl. by destruct F.
Qed.

Lemma tun_set_af_header_witness :
  exists w',
    tun_set_af Linux BigEndian (Buf 3) (AF_INET6 Linux) example_world = Ret 0 w' /\
    load (Buf 3) w' = Some [0; 0; 134; 221] /\
    trace w' = trace example_world /\ seq w' = seq example_world /\
    forall q, q <> Buf 3 -> load q w' = load q example_world.
Proof.
  apply (tun_set_af_header Linux BigEndian IPv6 (Buf 3) [0; 0; 0; 0] example_world).
  - reflexivity.
  - simpl. lia.
Defined.

Lemma le_value_cons b bs :
  byte_ok b -> le_value (b :: bs) = b + 256 * le_value bs.
Proof.
  intros Hb. cbn [le_value].
  destruct (byte_split b (le_value bs) Hb) as [Hlo Hhi].
  set (X := Z.lor b (Z.shiftl (le_value bs) 8)) in *.
  change 255 with (Z.ones 8) in Hlo. rewrite Z.land_ones in Hlo by lia.
  rewrite Z.shiftr_div_pow2 in Hhi by lia.
  change (2 ^ 8) with 256 in *.
  pose proof (Z.div_mod X 256 ltac:(lia)). lia.
Qed.

Lemma be_value_pair x y :
  byte_ok x -> byte_ok y -> be_value [x; y] = 256 * x + y.
Proof.
  intros Hx Hy. unfold be_value. simpl rev.
  rewrite (le_value_cons y), (le_value_cons x) by done. simpl. lia.
Qed.

(** On Linux tun_get_af looks at bytes 2 and 3 of the frame only: it
    returns AF_INET exactly when they are 08 00, AF_INET6 exactly when
    they are 86 DD, and 255 otherwise; the flags and the payload never
    matter, nor does the byte order of the host, and unless it returns 255
    it leaves the process as it was. *)
Theorem tun_get_af_linux_decode e buf a w :
  load buf w = Some a -> (4 <= length a)%nat -> Forall byte_ok a ->
  exists af w',
    tun_get_af Linux e buf w = Ret af w' /\
    (af = AF_INET <-> take 2 (drop 2 a) = [8; 0]) /\
    (af = AF_INET6 Linux <-> take 2 (drop 2 a) = [134; 221]) /\
    (af = AF_INET \/ af = AF_INET6 Linux \/ af = 255) /\
    (af <> 255 -> w' = w).
Proof.
  intros Hl Hlen Hb.
  destruct a as [|f0 [|f1 [|x [|y rest]]]]; simpl in Hlen; try lia.
  assert (Hx : byte_ok x /\ byte_ok y).
  { rewrite !Forall_cons in Hb. tauto. }
  destruct Hx as [Hx Hy].
  unfold tun_get_af.
  rewrite bind_run, (read_bytes_run _ _ _ _ _ Hl).
  rewrite read_at_Some by (unfold offsetof_pi_proto; simpl; lia).
  rewrite lift_Some_run. cbv beta iota zeta.
  change (take 2 (drop offsetof_pi_proto (f0 :: f1 :: x :: y :: rest))) with [x; y].
  change (take 2 (drop 2 (f0 :: f1 :: x :: y :: rest))) with [x; y].
  rewrite ntohs_decode;
    [|done|repeat apply Forall_cons_2; done].
  rewrite be_value_pair by done.
  unfold byte_ok in Hx, Hy.
  destruct (256 * x + y =? ETH_P_IP) eqn:E4.
  - apply Z.eqb_eq in E4. unfold ETH_P_IP in E4.
    exists AF_INET, w. split; [done|].
    assert (x = 8 /\ y = 0) as [-> ->] by lia.
    repeat split; try done; auto.
  - apply Z.eqb_neq in E4. unfold ETH_P_IP in E4.
    destruct (256 * x + y =? ETH_P_IPV6) eqn:E6.
    + apply Z.eqb_eq in E6. unfold ETH_P_IPV6 in E6.
      exists (AF_INET6 Linux), w. split; [done|].
      assert (x = 134 /\ y = 221) as [-> ->] by lia.
      repeat split; try done; auto.
    + apply Z.eqb_neq in E6. unfold ETH_P_IPV6 in E6.
      eexists 255, _. split; [reflexivity|].
      repeat split; try done; auto.
      * intros [= -> ->]. lia.
      * intros [= -> ->]. lia.
Qed.

Lemma tun_get_af_linux_decode_witness :
  exists af w',
    tun_get_af Linux LittleEndian (Buf 0)
      (initial_world {[ 0%nat := [0; 0; 134; 221; 96; 0] ]}) = Ret af w' /\
    (af = AF_INET <-> [134; 221] = [8; 0]) /\
    (af = AF_INET6 Linux <-> [134; 221] = [134; 221]) /\
    (af = AF_INET \/ af = AF_INET6 Linux \/ af = 255) /\
    (af <> 255 -> w' = initial_world {[ 0%nat := [0; 0; 134; 221; 96; 0] ]}).
Proof.
  apply (tun_get_af_linux_decode LittleEndian (Buf 0) [0; 0; 134; 221; 96; 0]).
  - reflexivity.
  - simpl. lia.
  - repeat apply Forall_cons_2; try apply Forall_nil_2; unfold byte_ok; lia.
Defined.

(** tun_get_af never ends the process: it returns whenever the buffer holds
    the four header bytes, changing neither memory nor the sequence number,
    and its behaviour is undefined only when the buffer is shorter than the
    header (or is not a buffer at all). *)
Theorem tun_get_af_outcome pf e buf w :
  match tun_get_af pf e buf w with
  | Ret _ w' =>
      (exists a, load buf w = Some a /\ (4 <= length a)%nat) /\
      bufs w' = bufs w /\ tun_if_name w' = tun_if_name w /\ seq w' = seq w
  | Undef => forall a, load buf w = Some a -> (length a < 4)%nat
  | Exit _ _ | Abort _ => False
  end.
Proof.
  unfold tun_get_af. destruct pf; rewrite bind_run; unfold read_bytes;
    destruct (load buf w) as [a|] eqn:Hl; try done;
    unfold read_at, offsetof_pi_proto; case_decide as Hd.
  - rewrite lift_Some_run. cbv beta iota zeta.
    set (et := ntohs e _).
    destruct (et =? ETH_P_IP); [|destruct (et =? ETH_P_IPV6)];
      try (unfold warnx, emit; rewrite bind_run; cbv beta iota);
      rewrite mret_run; (split; [exists a; split; [done|lia] | done]).
  - intros a' [= <-]. lia.
  - rewrite lift_Some_run. cbv beta iota.
    split; [exists a; split; [done|lia] | done].
  - intros a' [= <-]. lia.
Qed.

(** On BSD the header is the raw family word: whatever 32-bit value
    tun_set_af is given, supported family or not, tun_get_af reads the
    same value back from the buffer. *)
Theorem tun_af_roundtrip_bsd e buf a af w :
  load buf w = Some a -> (4 <= length a)%nat -> 0 <= af < 4294967296 ->
  exists w', tun_set_af BSD e buf af w = Ret 0 w' /\
             tun_get_af BSD e buf w' = Ret af w'.
Proof.
  intros Hl Hlen Haf.
  destruct (write_bytes_run buf 0 (encode e 4 (htonl e af)) a w Hl)
    as (a' & w' & Hrun & Ha' & Hs'); [rewrite encode_length; lia|].
  exists w'. unfold tun_set_af, tun_get_af. rewrite !bind_run, Hrun.
  split; [done|].
  rewrite (read_bytes_run _ _ _ _ _ (load_store _ _ _ _ Hs')).
  rewrite <- (encode_length e 4 (htonl e af)) at 1.
  rewrite (read_write_at _ _ _ _ Ha'), lift_Some_run. cbv beta iota.
  rewrite ntohl_stored, Z.mod_small by lia. done.
Qed.

Lemma tun_af_roundtrip_bsd_witness :
  exists w', tun_set_af BSD LittleEndian (Buf 3) 4294967295 example_world = Ret 0 w' /\
             tun_get_af BSD LittleEndian (Buf 3) w' = Ret 4294967295 w'.
Proof.
  apply (tun_af_roundtrip_bsd LittleEndian (Buf 3) [0; 0; 0; 0]).
  - reflexivity.
  - simpl. lia.
  - lia.
Defined.

(** ** tun_make_netmask: refusals and what it leaves alone *)

Lemma write_at_lookup off bs (a a' : list Z) i :
  write_at off bs a = Some a' ->
  a' !! i = if decide (off <= i < off + length bs)%nat
            then bs !! (i - off)%nat else a !! i.
Proof.
  unfold write_at. case_decide as Hd; [|done]. intros [= <-].
  case_decide as Hi.
  - rewrite lookup_app_r by (rewrite length_take; lia).
    rewrite length_take_le by lia. apply lookup_app_l. lia.
  - destruct (decide (i < off)%nat).
    + rewrite lookup_app_l by (rewrite length_take; lia).
      by apply lookup_take_lt.
    + rewrite lookup_app_r by (rewrite length_take; lia).
      rewrite length_take_le by lia.
      rewrite lookup_app_r by lia. rewrite lookup_drop. f_equal. lia.
Qed.

Lemma write_at_lookup_out off bs (a a' : list Z) i :
  write_at off bs a = Some a' -> (i < off \/ off + length bs <= i)%nat ->
  a' !! i = a !! i.
Proof.
  intros Hw Hi. rewrite (write_at_lookup _ _ _ _ _ Hw). case_decide; [lia|done].
Qed.

(** The three ways tun_make_netmask refuses its arguments.  A prefix
    length of zero or less fails the assertion before anything else is
    looked at, whatever the family.  A positive prefix length with a family
    that is neither AF_INET nor AF_INET6 ends the process with the
    diagnostic on the family.  A prefix length above the width of the
    family's addresses ends the process with the diagnostic on the prefix
    length.  Nothing is written in any of these cases. *)
Theorem tun_make_netmask_errors pf e mask af p w :
  (p <= 0 -> tun_make_netmask pf e mask af p w = Abort w) /\
  (0 < p -> af <> AF_INET -> af <> AF_INET6 pf ->
   tun_make_netmask pf e mask af p w =
     Exit EXIT_FAILURE
          (add_event (Ediag Ferrx "unsupported address family %d." [ArgInt af]) w)) /\
  (forall F, af = family_af pf F -> family_max F < p ->
   tun_make_netmask pf e mask af p w =
     Exit EXIT_FAILURE
          (add_event (Ediag Ferrx "invalid prefix length %d." [ArgInt p]) w)).
Proof.
  unfold tun_make_netmask. split; [|split].
  - intros Hp. rewrite bind_run. unfold assert.
    by rewrite (proj2 (Z.ltb_ge 0 p)) by lia.
  - intros Hp H4 H6. rewrite bind_run. unfold assert at 1.
    rewrite (proj2 (Z.ltb_lt 0 p)) by lia. cbv beta iota.
    rewrite bind_run.
    by rewrite (proj2 (Z.eqb_neq af AF_INET)), (proj2 (Z.eqb_neq af (AF_INET6 pf))).
  - intros F -> Hp. rewrite bind_run. unfold assert at 1.
    rewrite (proj2 (Z.ltb_lt 0 p)) by (destruct F; simpl in Hp; lia).
    cbv beta iota. rewrite bind_run.
    assert (Hsw : (if family_af pf F =? AF_INET
       then mret (32, Z.of_nat sizeof_sockaddr_in, offsetof_sin_addr)
       else if family_af pf F =? AF_INET6 pf
       then mret (128, Z.of_nat sizeof_sockaddr_in6, offsetof_sin6_addr)
       else errx EXIT_FAILURE "unsupported address family %d." [ArgInt (family_af pf F)]) w
      = Ret (family_max F, Z.of_nat (family_sockaddr_size F), family_addr_off F) w).
    { destruct F, pf; reflexivity. }
    rewrite Hsw. cbv beta iota. rewrite bind_run.
    by rewrite (proj2 (Z.ltb_lt (family_max F) p)).
Qed.

Lemma tun_make_netmask_errors_witness :
  tun_make_netmask BSD LittleEndian (replicate 28 0) AF_INET (-1) example_world =
    Abort example_world /\
  tun_make_netmask BSD LittleEndian (replicate 28 0) AF_LINK 8 example_world =
    Exit EXIT_FAILURE
      (add_event (Ediag Ferrx "unsupported address family %d." [ArgInt AF_LINK])
         example_world) /\
  tun_make_netmask BSD LittleEndian (replicate 28 0) AF_INET 33 example_world =
    Exit EXIT_FAILURE
      (add_event (Ediag Ferrx "invalid prefix length %d." [ArgInt 33]) example_world).
Proof.
  split; [|split].
  - apply (proj1 (tun_make_netmask_errors BSD LittleEndian (replicate 28 0) AF_INET
                    (-1) example_world)). lia.
  - apply (proj1 (proj2 (tun_make_netmask_errors BSD LittleEndian (replicate 28 0)
                           AF_LINK 8 example_world))); [lia|discriminate|discriminate].
  - apply (proj2 (proj2 (tun_make_netmask_errors BSD LittleEndian (replicate 28 0)
                           AF_INET 33 example_world)) IPv4); [reflexivity|].
    unfold family_max. lia.
Defined.

(** What tun_make_netmask writes outside the address: the first two bytes
    of the socket address become its header (the family on Linux; length
    and family on BSD) and every other byte outside the address field
    keeps the value it had: the function does not clear the structure. *)
Theorem tun_make_netmask_frame pf e F mask p w :
  (sizeof_sockaddr_in6 <= length mask)%nat -> 1 <= p <= family_max F ->
  exists mask',
    tun_make_netmask pf e mask (family_af pf F) p w = Ret (0, mask') w /\
    length mask' = length mask /\
    (forall i, (i < 2)%nat -> mask' !! i = sockaddr_header pf e F !! i) /\
    (forall i, (2 <= i)%nat ->
       (i < family_addr_off F \/ family_addr_off F + family_addr_len F <= i)%nat ->
       mask' !! i = mask !! i).
Proof.
  intros Hlen Hp.
  assert (HF : (family_addr_off F + family_addr_len F <= length mask)%nat /\
               (2 <= family_addr_off F)%nat).
  { unfold sizeof_sockaddr_in6 in Hlen.
    destruct F; unfold family_addr_off, family_addr_len, offsetof_sin_addr,
      offsetof_sin6_addr, sizeof_in_addr, sizeof_in6_addr; lia. }
  destruct HF as [HF Hoff].
  destruct (tun_make_netmask_general pf e F mask p w HF Hp) as (m & Hrun & _ & Hl).
  exists m. split; [done|]. split; [done|].
  revert Hrun.
  apply (wp_run (tun_make_netmask pf e mask (family_af pf F) p)
           (fun r _ =>
              (forall i, (i < 2)%nat -> r.2 !! i = sockaddr_header pf e F !! i) /\
              (forall i, (2 <= i)%nat ->
                 (i < family_addr_off F \/ family_addr_off F + family_addr_len F <= i)%nat ->
                 r.2 !! i = mask !! i))
           (fun _ => True) w (0, m) w).
  destruct (netmask_region (family_addr_len F) p) as (_ & Hq & Hr);
    [destruct F; unfold family_max in Hp;
     unfold family_addr_len, sizeof_in_addr, sizeof_in6_addr; lia|].
  cbv zeta in Hq, Hr.
  unfold tun_make_netmask.
  destruct F, pf; repeat wp_step; try done.
  all: unfold set_sa_family, set_sa_len in *; cbn [snd].
  all: unfold family_addr_off, family_addr_len, family_af, family_sockaddr_size,
         offsetof_sin_addr, offsetof_sin6_addr, sizeof_in_addr, sizeof_in6_addr,
         sizeof_sockaddr_in, sizeof_sockaddr_in6 in *.
  all: change (Z.to_nat (32 `div` 8)) with 4%nat in *;
       change (Z.to_nat (128 `div` 8)) with 16%nat in *.
  all: try match goal with
           | H : (0 <? Z.land _ 7) = true |- _ => apply Z.ltb_lt in H; specialize (Hr H)
           end.
  all: split; intros i Hi; [|intros Hi'].
  all: repeat match goal with
         | H : write_at ?o ?bs ?a = Some ?a' |- context [?a' !! ?j] =>
             rewrite (write_at_lookup_out o bs a a' j H)
               by (rewrite ?length_replicate, ?encode_length; simpl length; lia)
         end; try done.
  all: repeat match goal with
         | H : write_at ?o ?bs ?a = Some ?a' |- context [?a' !! ?j] =>
             rewrite (write_at_lookup o bs a a' j H)
         end.
  all: rewrite ?encode_length; unfold sockaddr_header.
  all: destruct i as [|[|i]]; [..|lia]; simpl; try done.
  all: by destruct e.
Qed.

Lemma tun_make_netmask_frame_witness :
  exists mask',
    tun_make_netmask BSD LittleEndian (replicate 28 7) (AF_INET6 BSD) 61 example_world
      = Ret (0, mask') example_world /\
    length mask' = 28%nat /\
    (forall i, (i < 2)%nat -> mask' !! i = [28; 28] !! i) /\
    (forall i, (2 <= i)%nat -> (i < 8 \/ 8 + 16 <= i)%nat ->
               mask' !! i = replicate 28 7 !! i).
Proof.
  apply (tun_make_netmask_frame BSD LittleEndian IPv6 (replicate 28 7) 61 example_world).
  - rewrite length_replicate. unfold sizeof_sockaddr_in6. lia.
  - unfold family_max. lia.
Defined.

Lemma netmask_spec_value F p :
  0 <= p <= family_max F ->
  be_value (netmask_spec (family_addr_len F) p) =
    2 ^ family_max F - 2 ^ (family_max F - p).
Proof.
  intros Hp.
  assert (Hall : Forall (fun p => be_value (netmask_spec (family_addr_len F) p) =
                                  2 ^ family_max F - 2 ^ (family_max F - p))
                        (seqZ 0 (family_max F + 1))).
  { destruct F; apply (bool_decide_unpack _); vm_compute; exact I. }
  rewrite Forall_forall in Hall. apply Hall. apply elem_of_seqZ. lia.
Qed.

(** The address tun_make_netmask writes, read as one big-endian number, is
    2^max - 2^(max - p): p one bits followed by zero bits. *)
Theorem tun_make_netmask_leading_ones pf e F mask p w :
  (sizeof_sockaddr_in6 <= length mask)%nat -> 1 <= p <= family_max F ->
  exists mask' bs,
    tun_make_netmask pf e mask (family_af pf F) p w = Ret (0, mask') w /\
    read_at (family_addr_off F) (family_addr_len F) mask' = Some bs /\
    be_value bs = 2 ^ family_max F - 2 ^ (family_max F - p).
Proof.
  intros Hlen Hp.
  assert (HF : (family_addr_off F + family_addr_len F <= length mask)%nat).
  { unfold sizeof_sockaddr_in6 in Hlen.
    destruct F; unfold family_addr_off, family_addr_len, offsetof_sin_addr,
      offsetof_sin6_addr, sizeof_in_addr, sizeof_in6_addr; lia. }
  destruct (tun_make_netmask_general pf e F mask p w HF Hp) as (m & Hrun & Hrd & _).
  exists m, (netmask_spec (family_addr_len F) p).
  split; [done|]. split; [done|]. apply netmask_spec_value. lia.
Qed.

Lemma tun_make_netmask_leading_ones_witness :
  exists mask' bs,
    tun_make_netmask Linux BigEndian (replicate 28 7) AF_INET 20 example_world
      = Ret (0, mask') example_world /\
    read_at offsetof_sin_addr sizeof_in_addr mask' = Some bs /\
    be_value bs = 2 ^ 32 - 2 ^ (32 - 20).
Proof.
  apply (tun_make_netmask_leading_ones Linux BigEndian IPv4 (replicate 28 7) 20
           example_world).
  - rewrite length_replicate. unfold sizeof_sockaddr_in6. lia.
  - unfold family_max. lia.
Defined.

(** ** tun_route_add: results and messages *)

Lemma wp_NEXTADDR_bound h rtm_addrs b u cp (Q : list Z -> world -> Prop) E w :
  (forall cp', ((length cp <= 512)%nat -> (length cp' <= 512)%nat) -> Q cp' w) ->
  wp (NEXTADDR h rtm_addrs b u cp) Q E w.
Proof.
  intros HQ. unfold NEXTADDR. repeat wp_step.
  - by apply HQ.
  - apply HQ. intros _. by rewrite length_app.
Qed.

Ltac trace_eq :=
  cbn [trace add_event]; rewrite <- ?app_assoc;
  first [reflexivity | symmetry; apply app_nil_r].

(** When tun_route_add returns on BSD, it returns -1 or 0 and has written
    to no buffer.  It returns -1 exactly for a family that is neither
    AF_INET nor AF_INET6, having done nothing but print the warning.  It
    returns 0 only after the routing socket was opened and one message,
    numbered one above the previous sequence number, was written to it
    with success; the last thing it did was to close that socket. *)
Theorem tun_route_add_return e h af addr p w r w' :
  tun_route_add e h BSD af addr p w = Ret r w' ->
  bufs w' = bufs w /\ tun_if_name w' = tun_if_name w /\
  ((r = -1 /\ af <> AF_INET /\ af <> AF_INET6 BSD /\
    w' = add_event (Ediag Fwarnx "unsupported address family %d" [ArgInt af]) w) \/
   (r = 0 /\ (af = AF_INET \/ af = AF_INET6 BSD) /\ seq w' = seq w + 1 /\
    exists t fd msg wr,
      trace w' = trace w ++ t /\ written_seqs t = [seq w + 1] /\
      Esocket PF_ROUTE SOCK_RAW 0 fd ∈ t /\ fd <> -1 /\
      Ewrite fd msg wr ∈ t /\ wr <> -1 /\
      last t = Some (Eclose fd))).
Proof.
  intros Hrun.
  refine (wp_run (tun_route_add e h BSD af addr p)
            (fun r w' =>
               bufs w' = bufs w /\ tun_if_name w' = tun_if_name w /\
               ((r = -1 /\ af <> AF_INET /\ af <> AF_INET6 BSD /\
                 w' = add_event (Ediag Fwarnx "unsupported address family %d" [ArgInt af]) w) \/
                (r = 0 /\ (af = AF_INET \/ af = AF_INET6 BSD) /\ seq w' = seq w + 1 /\
                 exists t fd msg wr,
                   trace w' = trace w ++ t /\ written_seqs t = [seq w + 1] /\
                   Esocket PF_ROUTE SOCK_RAW 0 fd ∈ t /\ fd <> -1 /\
                   Ewrite fd msg wr ∈ t /\ wr <> -1 /\
                   last t = Some (Eclose fd))))
            (fun _ => True) w r w' _ Hrun).
  clear Hrun r w'.
  unfold tun_route_add, tun_route_add_family, tun_route_add_install.
  repeat first [ apply wp_NEXTADDR; intros ?
               | apply wp_tun_make_netmask; [intros ? ?|done|done]
               | wp_step ]; try exact I.
  all: split; [reflexivity|]; split; [reflexivity|].
  all: try (left; repeat split; by apply Z.eqb_neq).
  all: right; split; [reflexivity|].
  all: split; [first [left; by apply Z.eqb_eq | right; by apply Z.eqb_eq]|].
  all: split; [reflexivity|].
  all: match goal with
       | Hs : (?s =? -1) = false, Hw : (?wr =? -1) = false |- _ =>
           eexists _, s, _, wr
       end.
  all: split; [trace_eq|]; cbn [app].
  all: repeat split; try reflexivity; try (by apply Z.eqb_neq).
  all: repeat first [apply list_elem_of_here | apply list_elem_of_further].
Qed.

Lemma tun_route_add_return_witness :
  bufs (world_of (tun_route_add BigEndian host_with_tun BSD (AF_INET6 BSD) (Buf 2) 128
                    created_world)) = bufs created_world.
Proof.
  apply (tun_route_add_return BigEndian host_with_tun (AF_INET6 BSD) (Buf 2) 128
           created_world 0).
  vm_compute. reflexivity.
Defined.

Lemma extends_with_diag_stable w P :
  diag_stable (extends_with w (writes_ok P)).
Proof.
  intros fn fmt args w1 (t & Ht & Hok). exists (t ++ [Ediag fn fmt args]).
  split; [cbn [trace add_event]; by rewrite Ht, app_assoc|].
  intros fd msg r [Hin|Hin]%elem_of_app; [by eapply Hok|].
  by apply list_elem_of_singleton in Hin.
Qed.

Ltac solve_writes_ok :=
  eexists; split; [trace_eq|];
  let Hin := fresh "Hin" in
  intros ? ? ? Hin; cbn [app] in Hin;
  repeat (apply elem_of_cons in Hin as [Hin|Hin]; [try discriminate Hin|]);
  try (by apply elem_of_nil in Hin).

(** Whichever way a call of tun_route_add for IPv4 or IPv6 ends, every
    message it wrote is an RTM_ADD of the current version whose length is
    the header plus the address blocks, which fit the 512 bytes of
    m_space; a prefix shorter than the address gives a static net route
    carrying destination, gateway and netmask, a full-length prefix a
    static host route carrying destination and gateway only. *)
Theorem tun_route_add_messages e h F addr p w w' :
  final_world (tun_route_add e h BSD (family_af BSD F) addr p w) = Some w' ->
  extends_with w (writes_ok (route_msg_ok h (family_max F) p)) w'.
Proof.
  apply wp_final.
  unfold tun_route_add, tun_route_add_family, tun_route_add_install.
  destruct F; cbn [family_af family_max].
  all: repeat first [ apply wp_NEXTADDR_bound; intros ? ?
                    | apply wp_tun_make_netmask;
                        [intros ? ?| |apply extends_with_diag_stable]
                    | wp_step ]; try discriminate.
  all: solve_writes_ok.
  all: injection Hin as _ -> _.
  all: unfold route_msg_ok; cbn [rtm_type rtm_version rtm_msglen m_space rtm_flags rtm_addrs].
  all: repeat match goal with
              | H : (_ <? _) = _ |- _ => rewrite H
              end.
  all: repeat split; try reflexivity; simpl in *; auto with lia.
Qed.

Lemma tun_route_add_messages_witness :
  extends_with created_world (writes_ok (route_msg_ok host_with_tun 32 24))
    (world_of (tun_route_add LittleEndian host_with_tun BSD AF_INET (Buf 1) 24
                 created_world)).
Proof.
  apply (tun_route_add_messages LittleEndian host_with_tun IPv4 (Buf 1) 24 created_world).
  vm_compute. reflexivity.
Defined.

(** Prefix lengths tun_route_add does not take.  A null address or a
    negative prefix length fails its assertions on every platform.  On BSD
    a prefix length of zero passes them, but the netmask it then asks
    tun_make_netmask for fails that function's assertion: a default route
    cannot be installed, and the process aborts before any system call. *)
Theorem tun_route_add_rejected_prefix e h pf af addr p w :
  (addr = NULL \/ p < 0 -> tun_route_add e h pf af addr p w = Abort w) /\
  (forall F a,
     pf = BSD -> af = family_af BSD F -> p = 0 ->
     load addr w = Some a -> (family_addr_len F <= length a)%nat ->
     (sizeof_sockaddr_in6 <= h_sizeof_sockunion h)%nat ->
     tun_route_add e h pf af addr p w = Abort w).
Proof.
  split.
  - intros [-> | Hp]; unfold tun_route_add; rewrite bind_run; unfold assert at 1.
    + reflexivity.
    + destruct (bool_decide (addr <> NULL)); [|done]. cbv beta iota.
      rewrite bind_run. unfold assert. by rewrite (proj2 (Z.leb_gt 0 p)).
  - intros F a -> -> -> Hl Hlen Hsz.
    assert (Hnull : addr <> NULL) by (intros ->; discriminate).
    unfold tun_route_add. rewrite bind_run. unfold assert at 1.
    rewrite (bool_decide_eq_true_2 _ Hnull). cbv beta iota.
    rewrite bind_run. unfold assert at 1. cbv beta iota.
    change (0 <=? 0) with true. cbv beta iota.
    assert (Hfam :
      (if family_af BSD F =? AF_INET
       then tun_route_add_family e h AF_INET sizeof_sockaddr_in offsetof_sin_addr
              sizeof_in_addr 32 addr 0
       else if family_af BSD F =? AF_INET6 BSD
       then tun_route_add_family e h (AF_INET6 BSD) sizeof_sockaddr_in6
              offsetof_sin6_addr sizeof_in6_addr 128 addr 0
       else warnx "unsupported address family %d" [ArgInt (family_af BSD F)] ;;
            mret (-1)) =
      tun_route_add_family e h (family_af BSD F) (family_sockaddr_size F)
        (family_addr_off F) (family_addr_len F) (family_max F) addr 0)
      by (by destruct F).
    rewrite Hfam. clear Hfam. unfold tun_route_add_family.
    destruct (stack_array_run h "so_dst" (h_sizeof_sockunion h) w) as (d0 & Hd0 & Ld0).
    rewrite bind_run, Hd0. cbv beta iota.
    destruct (stack_array_run h "so_gate" (h_sizeof_sockunion h) w) as (g0 & Hg0 & Lg0).
    rewrite bind_run, Hg0. cbv beta iota.
    destruct (stack_array_run h "so_mask" (h_sizeof_sockunion h) w) as (m0 & Hm0 & Lm0).
    rewrite bind_run, Hm0. cbv beta iota.
    assert (HF : (2 <= family_sockaddr_size F <= sizeof_sockaddr_in6)%nat /\
                 (family_addr_off F + family_addr_len F <= sizeof_sockaddr_in6)%nat)
      by (destruct F; vm_compute; lia).
    destruct HF as [HF1 HF2].
    destruct (init_sockaddr_Some e (family_sockaddr_size F) (family_af BSD F) d0)
      as (d1 & Hd1 & Ld1); [lia|].
    rewrite bind_run, Hd1, lift_Some_run.
    rewrite bind_run, (read_bytes_run _ _ _ _ _ Hl), read_at_Some by lia.
    rewrite lift_Some_run, drop_0.
    destruct (write_at_is_Some (family_addr_off F) (take (family_addr_len F) a) d1)
      as [d2 Hd2]; [rewrite length_take; lia|].
    rewrite bind_run, Hd2, lift_Some_run.
    assert (Hlt : (0 <? family_max F) = true) by (by destruct F).
    rewrite Hlt.
    destruct (init_sockaddr_Some e (family_sockaddr_size F) (family_af BSD F) m0)
      as (m1 & Hm1 & Lm1); [lia|].
    by rewrite bind_run, Hm1, lift_Some_run, bind_run.
Qed.

Lemma tun_route_add_rejected_prefix_witness :
  tun_route_add LittleEndian host_with_tun Linux AF_INET (Buf 1) (-1) example_world =
    Abort example_world /\
  tun_route_add LittleEndian host_with_tun BSD AF_INET (Buf 1) 0 created_world =
    Abort created_world.
Proof.
  split.
  - apply (proj1 (tun_route_add_rejected_prefix LittleEndian host_with_tun Linux
                    AF_INET (Buf 1) (-1) example_world)). right. lia.
  - apply (proj2 (tun_route_add_rejected_prefix LittleEndian host_with_tun BSD
                    AF_INET (Buf 1) 0 created_world) IPv4 [192; 0; 2; 0]).
    + reflexivity.
    + reflexivity.
    + reflexivity.
    + vm_compute. reflexivity.
    + vm_compute. lia.
    + vm_compute. lia.
Defined.

(** The search of the interface list for the link-layer address of the
    tun interface.  A result is the address of a listed entry of family
    AF_LINK whose name equals the interface name; no result means that no
    listed entry is of that family and name; and the search is undefined
    only if some entry has no address, or an address too short to hold a
    family, or a name that cannot be compared. *)
Theorem find_sdl_result name ifap :
  match find_sdl name ifap None with
  | Some (Some sa) =>
      exists ifa, ifa ∈ ifap /\ ifa_addr ifa = Some sa /\
                  get_sa_family_bsd sa = Some AF_LINK /\
                  strcmp name (ifa_name ifa) = Some 0
  | Some None =>
      forall ifa sa, ifa ∈ ifap -> ifa_addr ifa = Some sa ->
        get_sa_family_bsd sa = Some AF_LINK -> strcmp name (ifa_name ifa) <> Some 0
  | None =>
      exists ifa, ifa ∈ ifap /\
        (ifa_addr ifa = None \/
         (exists sa, ifa_addr ifa = Some sa /\
            (get_sa_family_bsd sa = None \/
             (get_sa_family_bsd sa = Some AF_LINK /\ strcmp name (ifa_name ifa) = None))))
  end.
Proof.
  assert (Hgen : forall sdlp,
    match find_sdl name ifap sdlp with
    | Some (Some sa) =>
        sdlp = Some sa \/
        exists ifa, ifa ∈ ifap /\ ifa_addr ifa = Some sa /\
                    get_sa_family_bsd sa = Some AF_LINK /\
                    strcmp name (ifa_name ifa) = Some 0
    | Some None =>
        sdlp = None /\
        forall ifa sa, ifa ∈ ifap -> ifa_addr ifa = Some sa ->
          get_sa_family_bsd sa = Some AF_LINK -> strcmp name (ifa_name ifa) <> Some 0
    | None =>
        exists ifa, ifa ∈ ifap /\
          (ifa_addr ifa = None \/
           (exists sa, ifa_addr ifa = Some sa /\
              (get_sa_family_bsd sa = None \/
               (get_sa_family_bsd sa = Some AF_LINK /\
                strcmp name (ifa_name ifa) = None))))
    end).
  { induction ifap as [|ifa ifap IH]; intros sdlp; cbn [find_sdl].
    - destruct sdlp; [by left|]. split; [done|]. intros ? ? Hin. by apply elem_of_nil in Hin.
    - destruct (ifa_addr ifa) as [sa|] eqn:Ha.
      2:{ exists ifa. split; [apply list_elem_of_here|by left]. }
      destruct (get_sa_family_bsd sa) as [fam|] eqn:Hf.
      2:{ exists ifa. split; [apply list_elem_of_here|]. right. exists sa. auto. }
      destruct (fam =? AF_LINK) eqn:Hfam; cbn [negb].
      + apply Z.eqb_eq in Hfam. subst fam.
        destruct (strcmp name (ifa_name ifa)) as [c|] eqn:Hc.
        2:{ exists ifa. split; [apply list_elem_of_here|]. right. exists sa. auto. }
        destruct (c =? 0) eqn:Hc0; cbn [negb].
        * apply Z.eqb_eq in Hc0. subst c.
          specialize (IH (Some sa)).
          destruct (find_sdl name ifap (Some sa)) as [[sa'|]|].
          -- right. destruct IH as [[= <-]|(ifa' & Hin & ?)].
             ++ exists ifa. split; [apply list_elem_of_here|done].
             ++ exists ifa'. split; [by apply list_elem_of_further|done].
          -- by destruct IH.
          -- destruct IH as (ifa' & Hin & ?). exists ifa'.
             split; [by apply list_elem_of_further|done].
        * apply Z.eqb_neq in Hc0. specialize (IH sdlp).
          destruct (find_sdl name ifap sdlp) as [[sa'|]|].
          -- destruct IH as [?|(ifa' & Hin & ?)]; [by left|right].
             exists ifa'. split; [by apply list_elem_of_further|done].
          -- destruct IH as [-> IH]. split; [done|].
             intros ifa' sa' [->|Hin]%elem_of_cons Ha' Hf'.
             ++ rewrite Hc. congruence.
             ++ by eapply IH.
          -- destruct IH as (ifa' & Hin & ?). exists ifa'.
             split; [by apply list_elem_of_further|done].
      + apply Z.eqb_neq in Hfam. specialize (IH sdlp).
        destruct (find_sdl name ifap sdlp) as [[sa'|]|].
        * destruct IH as [?|(ifa' & Hin & ?)]; [by left|right].
          exists ifa'. split; [by apply list_elem_of_further|done].
        * destruct IH as [-> IH]. split; [done|].
          intros ifa' sa' [->|Hin]%elem_of_cons Ha' Hf'.
          -- congruence.
          -- by eapply IH.
        * destruct IH as (ifa' & Hin & ?). exists ifa'.
          split; [by apply list_elem_of_further|done]. }
  specialize (Hgen None). destruct (find_sdl name ifap None) as [[sa|]|].
  - by destruct Hgen as [?|?].
  - by destruct Hgen.
  - done.
Qed.

(** ** tun_dealloc and tun_alloc: system calls and results *)

(** tun_dealloc never ends the process and writes to no buffer.  When it
    returns, it started by opening the control socket and, if that
    succeeded, finished by closing it; it returns 0 exactly when no system
    call failed, and -1 after a failed call and a warning. *)
Theorem tun_dealloc_outcome h name w :
  match tun_dealloc h name w with
  | Ret r w' =>
      bufs w' = bufs w /\ tun_if_name w' = tun_if_name w /\ seq w' = seq w /\
      exists t s,
        trace w' = trace w ++ t /\
        head t = Some (Esocket AF_INET SOCK_DGRAM 0 s) /\
        (s <> -1 -> last t = Some (Eclose s)) /\
        ((r = 0 /\ Forall (fun ev => call_failed ev = false) t) \/
         (r = -1 /\ Exists (fun ev => call_failed ev = true) t /\
          exists fmt args, Ediag Fwarn fmt args ∈ t))
  | Exit _ _ | Abort _ => False
  | Undef => True
  end.
Proof.
  change (wp (tun_dealloc h name)
            (fun r w' =>
               bufs w' = bufs w /\ tun_if_name w' = tun_if_name w /\ seq w' = seq w /\
               exists t s,
                 trace w' = trace w ++ t /\
                 head t = Some (Esocket AF_INET SOCK_DGRAM 0 s) /\
                 (s <> -1 -> last t = Some (Eclose s)) /\
                 ((r = 0 /\ Forall (fun ev => call_failed ev = false) t) \/
                  (r = -1 /\ Exists (fun ev => call_failed ev = true) t /\
                   exists fmt args, Ediag Fwarn fmt args ∈ t)))
            (fun _ => False) w).
  unfold tun_dealloc. repeat wp_step.
  all: do 3 (split; [reflexivity|]).
  all: eexists _, _; split; [trace_eq|]; cbn [app].
  all: split; [reflexivity|].
  all: split; [first [ intros _; reflexivity
                     | intros Hs; exfalso;
                       match goal with
                       | H : (_ =? -1) = true |- _ => apply Z.eqb_eq in H; congruence
                       end ]|].
  - right. split; [done|]. split.
    + apply Exists_cons_hd. done.
    + eexists _, _. apply list_elem_of_further, list_elem_of_here.
  - right. split; [done|]. split.
    + apply Exists_cons_tl, Exists_cons_hd. done.
    + eexists _, _. do 2 apply list_elem_of_further. apply list_elem_of_here.
  - left. split; [done|]. repeat apply Forall_cons_2; try apply Forall_nil_2; done.
Qed.


Lemma strncpy_again src k n rest :
  strncpy src k = Some n -> strncpy (n ++ rest) k = Some n.
Proof.
  revert src n. induction k as [|k IH]; intros src n; simpl.
  - by intros [= <-].
  - destruct src as [|c src]; [done|]. destruct (c =? 0) eqn:Hc.
    + intros [= <-]. by cbn [replicate app strncpy Z.eqb].
    + destruct (strncpy src k) as [n'|] eqn:Hn; simpl; [|done].
      intros [= <-]. cbn [app strncpy]. rewrite Hc.
      by rewrite (IH _ _ Hn).
Qed.

(** The interface tun_alloc brings up is the one the kernel created: the
    name in the SIOCSIFFLAGS request is the name the creating ioctl handed
    back, cut to IFNAMSIZ, whatever name the caller asked for. *)
Theorem tun_alloc_brings_up_kernel_name pf h name w fd w' :
  tun_alloc pf h name w = Ret fd w' ->
  exists t fd0 arg r res n s r2 res2,
    trace w' = trace w ++ t /\
    Eioctl_ifreq fd0 (create_request pf) arg r res ∈ t /\
    strncpy (ifr_name res) IFNAMSIZ = Some n /\
    Eioctl_ifreq s SIOCSIFFLAGS (Ifreq n IFF_UP) r2 res2 ∈ t.
Proof.
  intros Hrun.
  refine (wp_run (tun_alloc pf h name)
            (fun _ w' => exists t fd0 arg r res n s r2 res2,
               trace w' = trace w ++ t /\
               Eioctl_ifreq fd0 (create_request pf) arg r res ∈ t /\
               strncpy (ifr_name res) IFNAMSIZ = Some n /\
               Eioctl_ifreq s SIOCSIFFLAGS (Ifreq n IFF_UP) r2 res2 ∈ t)
            (fun _ => True) w fd w' _ Hrun).
  clear Hrun fd w'. unfold tun_alloc.
  destruct pf; repeat wp_step; try exact I.
  all: repeat match goal with
         | H : load _ (add_event _ _) = Some _ |- _ => rewrite load_add_event in H
         end.
  all: match goal with
       | Hs : store _ ?a' (add_event (Eioctl_ifreq ?fd ?req ?arg ?r ?res) ?wk) = Some ?w1,
         Hw : write_at 0 ?n _ = Some ?a',
         Hn : strncpy (ifr_name ?res) IFNAMSIZ = Some ?n,
         Hl : load _ ?w1 = Some ?b,
         Hn2 : strncpy ?b IFNAMSIZ = Some ?n2 |- _ =>
           destruct (store_trace _ _ _ _ Hs) as [Htr _];
           rewrite (load_store _ _ _ _ Hs) in Hl; injection Hl as <-;
           unfold write_at in Hw; case_decide; [|discriminate];
           injection Hw as <-;
           rewrite ?take_0, ?app_nil_l in Hn2;
           rewrite (strncpy_again _ _ _ _ Hn) in Hn2;
           injection Hn2 as <-;
           eexists _, fd, arg, r, res, n, _, _, _
       end.
  all: split; [cbn [trace add_event]; rewrite ?Htr; trace_eq|]; cbn [app].
  all: split; [repeat first [apply list_elem_of_here | apply list_elem_of_further]|].
  all: split; [assumption|].
  all: repeat first [apply list_elem_of_here | apply list_elem_of_further].
Qed.

Lemma tun_alloc_brings_up_kernel_name_witness :
  exists t fd0 arg r res n s r2 res2,
    trace (world_of (tun_alloc Linux host_with_tun (Buf 0) example_world)) =
      trace example_world ++ t /\
    Eioctl_ifreq fd0 (create_request Linux) arg r res ∈ t /\
    strncpy (ifr_name res) IFNAMSIZ = Some n /\
    Eioctl_ifreq s SIOCSIFFLAGS (Ifreq n IFF_UP) r2 res2 ∈ t.
Proof.
  apply (tun_alloc_brings_up_kernel_name Linux host_with_tun (Buf 0) example_world 4).
  vm_compute. reflexivity.
Defined.

(** tun_alloc copies IFNAMSIZ bytes back into the caller's buffer: with a
    shorter buffer it never returns. *)
Theorem tun_alloc_short_buffer pf h name a w fd w' :
  load name w = Some a -> (length a < IFNAMSIZ)%nat ->
  tun_alloc pf h name w <> Ret fd w'.
Proof.
  intros Hl Hlen Hrun.
  refine (wp_run (tun_alloc pf h name) (fun _ _ => False) (fun _ => True)
            w fd w' _ Hrun).
  clear Hrun. unfold tun_alloc.
  destruct pf; repeat wp_step; try exact I.
  all: repeat match goal with
         | H : load _ (add_event _ _) = Some _ |- _ => rewrite load_add_event in H
         end.
  all: match goal with
       | Hw : write_at 0 ?n ?b = Some _, Hn : strncpy _ IFNAMSIZ = Some ?n,
         Hb : load _ _ = Some ?b |- _ =>
           apply strncpy_length in Hn; unfold write_at in Hw;
           rewrite Hl in Hb; injection Hb as <-;
           case_decide; [lia|discriminate]
       end.
Qed.

Lemma tun_alloc_short_buffer_witness :
  tun_alloc BSD host_with_tun (Buf 1) example_world <> Ret 4 example_world.
Proof.
  apply (tun_alloc_short_buffer BSD host_with_tun (Buf 1) [192; 0; 2; 0]).
  - reflexivity.
  - vm_compute. lia.
Defined.

(** ** tun_route_add: the destination of a message *)

Lemma lor_ge_l a b : 0 <= b -> a <= Z.lor a b.
Proof.
  intros Hb. pose proof (Z.sub_lor_l_same_l b a) as H.
  assert (0 <= Z.land b (Z.lnot a)) by (apply Z.land_nonneg; auto).
  lia.
Qed.

Lemma wp_NEXTADDR_first h rtm_addrs b u (Q : list Z -> world -> Prop) E w :
  Z.land rtm_addrs b <> 0 ->
  (forall l block, SA_SIZE h u = Some l -> read_at 0 (Z.to_nat l) u = Some block ->
                   Q block w) ->
  wp (NEXTADDR h rtm_addrs b u []) Q E w.
Proof.
  intros Hb HQ. unfold NEXTADDR.
  rewrite (proj2 (Z.eqb_neq _ _) Hb). repeat wp_step. eauto.
Qed.

Lemma wp_NEXTADDR_app h rtm_addrs b u cp (Q : list Z -> world -> Prop) E w :
  (forall extra, Q (cp ++ extra) w) -> wp (NEXTADDR h rtm_addrs b u cp) Q E w.
Proof.
  intros HQ. unfold NEXTADDR. repeat wp_step; [|apply HQ].
  rewrite <- (app_nil_r cp). apply HQ.
Qed.

(** The destination socket address that tun_route_add fills in. *)
Lemma so_dst_contents e F (d0 d1 d2 bs : list Z) :
  init_sockaddr e (family_sockaddr_size F) (family_af BSD F) d0 = Some d1 ->
  write_at (family_addr_off F) bs d1 = Some d2 ->
  length bs = family_addr_len F ->
  d2 !! 0%nat = Some (Z.of_nat (family_sockaddr_size F)) /\
  d2 !! 1%nat = Some (family_af BSD F) /\
  read_at (family_addr_off F) (family_addr_len F) d2 = Some bs.
Proof.
  intros Hi Hw Hl. unfold init_sockaddr in Hi.
  destruct (write_at 0 (replicate (family_sockaddr_size F) 0) d0) as [x1|] eqn:H1;
    [|done]. cbn [mbind option_bind] in Hi.
  destruct (set_sa_len (Z.of_nat (family_sockaddr_size F)) x1) as [x2|] eqn:H2;
    [|done]. cbn [mbind option_bind] in Hi.
  unfold set_sa_len in H2. unfold set_sa_family in Hi.
  split; [|split].
  - rewrite (write_at_lookup_out _ _ _ _ _ Hw) by (destruct F; vm_compute; lia).
    rewrite (write_at_lookup_out _ _ _ _ _ Hi) by (rewrite encode_length; lia).
    rewrite (write_at_lookup _ _ _ _ _ H2), encode_length.
    case_decide; [|lia]. by destruct F.
  - rewrite (write_at_lookup_out _ _ _ _ _ Hw) by (destruct F; vm_compute; lia).
    rewrite (write_at_lookup _ _ _ _ _ Hi), encode_length.
    case_decide; [|lia]. by destruct F, e.
  - rewrite <- Hl. by eapply read_write_at.
Qed.

Lemma read_at_app_l off n (a b : list Z) :
  (off + n <= length a)%nat -> read_at off n (a ++ b) = read_at off n a.
Proof.
  intros H. rewrite !read_at_Some by (rewrite ?length_app; lia).
  f_equal. rewrite drop_app_le by lia. apply take_app_le.
  rewrite length_drop. lia.
Qed.

Lemma read_at_take off n k (a : list Z) :
  (off + n <= k)%nat -> (k <= length a)%nat ->
  read_at off n (take k a) = read_at off n a.
Proof.
  intros H1 H2. rewrite !read_at_Some by (rewrite ?length_take; lia).
  f_equal. rewrite take_drop_commute, take_take.
  rewrite take_drop_commute. do 2 f_equal. lia.
Qed.

Lemma take_2_lookup (l : list Z) x y :
  l !! 0%nat = Some x -> l !! 1%nat = Some y -> take 2 l = [x; y].
Proof.
  destruct l as [|? [|? ?]]; try done. by intros [= ->] [= ->].
Qed.

(** The first address block of the message is the destination. *)
Lemma route_dst_block e h F (d0 d1 d2 a bs block rest : list Z) l :
  init_sockaddr e (family_sockaddr_size F) (family_af BSD F) d0 = Some d1 ->
  read_at 0 (family_addr_len F) a = Some bs ->
  write_at (family_addr_off F) bs d1 = Some d2 ->
  SA_SIZE h d2 = Some l -> read_at 0 (Z.to_nat l) d2 = Some block ->
  1 <= h_sizeof_long h ->
  take 2 (block ++ rest) =
    [Z.of_nat (family_sockaddr_size F); family_af BSD F] /\
  read_at (family_addr_off F) (family_addr_len F) (block ++ rest) =
    Some (take (family_addr_len F) a).
Proof.
  intros Hi Hr Hw Hs Hb Hsl.
  assert (Hbs : bs = take (family_addr_len F) a /\ length bs = family_addr_len F).
  { unfold read_at in Hr. case_decide; [|done]. injection Hr as <-.
    rewrite drop_0, length_take. split; [done|lia]. }
  destruct Hbs as [Hbs Hlen].
  destruct (so_dst_contents e F d0 d1 d2 bs Hi Hw Hlen) as (H0 & H1 & Hrd).
  unfold SA_SIZE, get_sa_len in Hs. rewrite H0 in Hs.
  assert (Hl : Z.of_nat (family_sockaddr_size F) <= l).
  { destruct (Z.of_nat (family_sockaddr_size F) =? 0) eqn:Hz;
      [by destruct F|]. injection Hs as <-.
    pose proof (lor_ge_l (Z.of_nat (family_sockaddr_size F) - 1)
                  (h_sizeof_long h - 1) ltac:(lia)). lia. }
  assert (Hsz : (family_addr_off F + family_addr_len F <= family_sockaddr_size F)%nat /\
                (2 <= family_sockaddr_size F)%nat) by (destruct F; vm_compute; lia).
  unfold read_at in Hb. case_decide as Hk; [|done]. injection Hb as <-.
  rewrite drop_0. simpl in Hk.
  assert (Hlb : length (take (Z.to_nat l) d2) = Z.to_nat l)
    by (rewrite length_take; lia).
  split.
  - apply take_2_lookup.
    + rewrite lookup_app_l by lia. rewrite lookup_take_lt by lia. done.
    + rewrite lookup_app_l by lia. rewrite lookup_take_lt by lia. done.
  - rewrite read_at_app_l by lia. rewrite read_at_take by lia. by rewrite <- Hbs.
Qed.

(** Whichever way a call of tun_route_add for IPv4 or IPv6 ends, every
    message it wrote begins with the destination: a socket address whose
    first two bytes are its length and family, and whose address field
    holds the leading bytes of the caller's address, unmasked. *)
Theorem route_message_destination e h F addr a p w w' :
  load addr w = Some a -> 1 <= h_sizeof_long h ->
  final_world (tun_route_add e h BSD (family_af BSD F) addr p w) = Some w' ->
  extends_with w (writes_ok (route_dst_ok F a)) w'.
Proof.
  intros Hl Hsl. apply wp_final.
  unfold tun_route_add, tun_route_add_family, tun_route_add_install.
  destruct F; cbn [family_af family_max].
  all: repeat first [ apply wp_NEXTADDR_first; [done|intros ? ? ? ?]
                    | apply wp_NEXTADDR_app; intros ?
                    | apply wp_tun_make_netmask;
                        [intros ? ?| |apply extends_with_diag_stable]
                    | wp_step ]; try discriminate.
  all: solve_writes_ok.
  all: injection Hin as _ -> _; unfold route_dst_ok; cbn [m_space].
  all: match goal with
       | Hi : init_sockaddr _ _ _ _ = Some ?d1, Hw : write_at _ _ ?d1 = Some ?d2,
         Hr : read_at 0 _ ?b = Some _, Hb : load _ _ = Some ?b,
         Hs : SA_SIZE _ ?d2 = Some _, Hk : read_at 0 _ ?d2 = Some _ |- _ =>
           rewrite Hl in Hb; injection Hb as <-;
           first [ exact (route_dst_block e h IPv4 _ _ _ _ _ _ _ _ Hi Hr Hw Hs Hk Hsl)
                 | exact (route_dst_block e h IPv6 _ _ _ _ _ _ _ _ Hi Hr Hw Hs Hk Hsl) ]
       end.
Qed.

Lemma route_message_destination_witness :
  extends_with created_world
    (writes_ok (route_dst_ok IPv6 [32; 1; 13; 184; 0; 0; 0; 0; 0; 0; 0; 0; 0; 0; 0; 1]))
    (world_of (tun_route_add LittleEndian host_with_tun BSD (AF_INET6 BSD) (Buf 2) 64
                 created_world)).
Proof.
  apply (route_message_destination LittleEndian host_with_tun IPv6 (Buf 2)
           [32; 1; 13; 184; 0; 0; 0; 0; 0; 0; 0; 0; 0; 0; 0; 1] 64 created_world).
  - vm_compute. reflexivity.
  - vm_compute. discriminate.
  - vm_compute. reflexivity.
Defined.
